(** * Spektate backend: configuration resolution and author lookup

    A shallow embedding of [backend/src/config.ts] and
    [backend/src/lib/author.ts].

    - [process.env] is a finite map from variable names to strings.
    - The TypeScript interfaces are records, the unions are tagged sums,
      and the two enums are inductive types with their numeric codes.
    - TypeScript types are erased when the program runs: a property read
      through a cast such as [(config.repoConfig as IAzDORepoConfig).manifestRepo]
      is a plain property lookup on the object that was built.  Each record
      therefore comes with the object it denotes ([*_object]), and every
      property read of the source goes through [get_prop].
    - [throw] is the left injection of a sum; the message is kept. *)

From Stdlib Require Import ZArith Lia Ascii.
From Stdlib Require SpecFloat.
From stdpp Require Import base option strings gmap list.

Local Open Scope Z_scope.
Local Open Scope string_scope.

(** ** JavaScript values, truthiness and property lookup *)

#[local] Set Warnings "-register-all".

Inductive value :=
| VUndefined
| VString (s : string)
| VNumber (n : Z)
| VObject (props : list (string * value)).

Abbreviation object := (list (string * value)).

(** [ToBoolean]: [undefined], the empty string and [0] are falsy, every
    object is truthy. *)
Definition truthy (v : value) : bool :=
  match v with
  | VUndefined => false
  | VString s => negb (String.eqb s "")
  | VNumber n => negb (Z.eqb n 0)
  | VObject _ => true
  end.

(** [a || b] *)
Definition js_or (a b : value) : value := if truthy a then a else b.

(** [o.k] on an object: the value of the own property, [undefined] when the
    object has no such property. *)
Fixpoint get_prop (o : object) (k : string) : value :=
  match o with
  | [] => VUndefined
  | (k', v) :: o' => if String.eqb k' k then v else get_prop o' k
  end.

(** [v.k] on any value that the program reads a property from. *)
Definition prop (v : value) (k : string) : value :=
  match v with
  | VObject o => get_prop o k
  | _ => VUndefined
  end.

(** [v !== undefined] *)
Definition defined (v : value) : bool :=
  match v with VUndefined => false | _ => true end.

(** An optional string field as a runtime value. *)
Definition of_option (o : option string) : value :=
  match o with Some s => VString s | None => VUndefined end.

(** ** The process environment *)

Abbreviation Env := (gmap string string).

(** [process.env.K] *)
Definition getenv (env : Env) (k : string) : option string := env !! k.

(** The string held by [process.env.K] when it is truthy, that is defined
    and not empty; this is the test [if (process.env.K)] of the source. *)
Definition env_set (env : Env) (k : string) : option string :=
  match getenv env k with
  | Some s => if String.eqb s "" then None else Some s
  | None => None
  end.

(** [process.env.K || ""] *)
Definition env_or_empty (env : Env) (k : string) : string :=
  match env_set env k with Some s => s | None => "" end.

Definition AZDO_ORG := "REACT_APP_AZDO_ORG".
Definition AZDO_PROJECT := "REACT_APP_AZDO_PROJECT".
Definition AZDO_ACCESS_TOKEN := "REACT_APP_AZDO_ACCESS_TOKEN".
Definition AZDO_MANIFEST_REPO := "REACT_APP_AZDO_MANIFEST_REPO".
Definition GITHUB_TOKEN := "REACT_APP_GITHUB_TOKEN".
Definition GITHUB_MANIFEST_REPO := "REACT_APP_GITHUB_MANIFEST_REPO".
Definition GITHUB_HLD_REPO := "REACT_APP_GITHUB_HLD_REPO".
Definition GITHUB_SOURCE_REPO := "REACT_APP_GITHUB_SOURCE_REPO".
Definition GITLAB_TOKEN := "REACT_APP_GITLAB_TOKEN".
Definition GITLAB_SOURCE_PROJECT_ID := "REACT_APP_GITLAB_SOURCE_PROJECT_ID".
Definition GITLAB_HLD_PROJECT_ID := "REACT_APP_GITLAB_HLD_PROJECT_ID".
Definition GITLAB_MANIFEST_PROJECT_ID := "REACT_APP_GITLAB_MANIFEST_PROJECT_ID".
Definition STORAGE_ACCESS_KEY := "REACT_APP_STORAGE_ACCESS_KEY".
Definition STORAGE_ACCOUNT_NAME := "REACT_APP_STORAGE_ACCOUNT_NAME".
Definition STORAGE_PARTITION_KEY := "REACT_APP_STORAGE_PARTITION_KEY".
Definition STORAGE_TABLE_NAME := "REACT_APP_STORAGE_TABLE_NAME".
Definition CACHE_REFRESH_INTERVAL_IN_SEC := "REACT_APP_CACHE_REFRESH_INTERVAL_IN_SEC".

(** ** Errors *)

(** A computation that may [throw Error(msg)]. *)
Abbreviation result := (sum string).

#[global] Instance result_ret : MRet result := λ A a, inr a.
#[global] Instance result_bind : MBind result :=
  λ A B f m, match m with inl e => inl e | inr a => f a end.

(** ** config.ts: data model *)

Module RepositoryType.
Inductive t := AZDO | GITHUB | GITLAB.
Definition code (r : t) : Z :=
  match r with AZDO => 0 | GITHUB => 1 | GITLAB => 2 end.
End RepositoryType.

Module PipelineType.
Inductive t := AZDO | GITHUB_ACTIONS | GITLAB.
Definition code (p : t) : Z :=
  match p with AZDO => 0 | GITHUB_ACTIONS => 1 | GITLAB => 2 end.
End PipelineType.

Module IAzDOPipelineConfig.
Record t := { org : string; project : string; accessToken : option string }.
End IAzDOPipelineConfig.

Module IAzDORepoConfig.
Record t := { accessToken : option string; manifestRepo : string }.
End IAzDORepoConfig.

Module IGithubActionsConfig.
Record t := { accessToken : option string }.
End IGithubActionsConfig.

Module IGithubRepoConfig.
Record t := {
  accessToken : option string;
  sourceRepo : string;
  hldRepo : string;
  manifestRepo : string }.
End IGithubRepoConfig.

Module IGitlabPipelineConfig.
Record t := { accessToken : string }.
End IGitlabPipelineConfig.

Module IGitlabRepoConfig.
Record t := {
  accessToken : string;
  sourceRepoProjectId : string;
  hldRepoProjectId : string;
  manifestProjectId : string }.
End IGitlabRepoConfig.

(** [IAzDOPipelineConfig | IGithubActionsConfig | IGitlabPipelineConfig] *)
Inductive PipelineConfig :=
| AzDOPipeline (c : IAzDOPipelineConfig.t)
| GithubActions (c : IGithubActionsConfig.t)
| GitlabPipeline (c : IGitlabPipelineConfig.t).

(** [IAzDORepoConfig | IGithubRepoConfig | IGitlabRepoConfig] *)
Inductive RepoConfig :=
| AzDORepo (c : IAzDORepoConfig.t)
| GithubRepo (c : IGithubRepoConfig.t)
| GitlabRepo (c : IGitlabRepoConfig.t).

Record IConfig := {
  pipelineConfig : PipelineConfig;
  repoConfig : RepoConfig;
  storageAccessKey : string;
  storageAccountName : string;
  storageTableName : string;
  storagePartitionKey : string;
  repoType : RepositoryType.t;
  pipelineType : PipelineType.t }.

(** *** The objects behind the records

    The properties are those of the object literals of [getPipelineConfig],
    [getReposConfig] and [getConfig], in the order they are written. *)

Definition pipeline_object (p : PipelineConfig) : object :=
  match p with
  | AzDOPipeline c =>
      [("org", VString (IAzDOPipelineConfig.org c));
       ("project", VString (IAzDOPipelineConfig.project c));
       ("accessToken", of_option (IAzDOPipelineConfig.accessToken c))]
  | GithubActions c =>
      [("accessToken", of_option (IGithubActionsConfig.accessToken c))]
  | GitlabPipeline c =>
      [("accessToken", VString (IGitlabPipelineConfig.accessToken c))]
  end.

Definition repo_object (r : RepoConfig) : object :=
  match r with
  | AzDORepo c =>
      [("manifestRepo", VString (IAzDORepoConfig.manifestRepo c));
       ("accessToken", of_option (IAzDORepoConfig.accessToken c))]
  | GithubRepo c =>
      [("manifestRepo", VString (IGithubRepoConfig.manifestRepo c));
       ("hldRepo", VString (IGithubRepoConfig.hldRepo c));
       ("sourceRepo", VString (IGithubRepoConfig.sourceRepo c));
       ("accessToken", of_option (IGithubRepoConfig.accessToken c))]
  | GitlabRepo c =>
      [("manifestProjectId", VString (IGitlabRepoConfig.manifestProjectId c));
       ("hldRepoProjectId", VString (IGitlabRepoConfig.hldRepoProjectId c));
       ("sourceRepoProjectId", VString (IGitlabRepoConfig.sourceRepoProjectId c));
       ("accessToken", VString (IGitlabRepoConfig.accessToken c))]
  end.

Definition config_object (c : IConfig) : object :=
  [("pipelineConfig", VObject (pipeline_object (pipelineConfig c)));
   ("repoConfig", VObject (repo_object (repoConfig c)));
   ("storageAccessKey", VString (storageAccessKey c));
   ("storageAccountName", VString (storageAccountName c));
   ("storagePartitionKey", VString (storagePartitionKey c));
   ("storageTableName", VString (storageTableName c));
   ("repoType", VNumber (RepositoryType.code (repoType c)));
   ("pipelineType", VNumber (PipelineType.code (pipelineType c)))].

(** ** config.ts: resolution *)

(** [getPipelineConfig]: the first matching provider wins; [pipelineType]
    starts at 0, which is [PipelineType.AZDO], and stays there when nothing
    matches. *)
Definition getPipelineConfig (env : Env) : PipelineType.t * option PipelineConfig :=
  match env_set env AZDO_ORG, env_set env AZDO_PROJECT with
  | Some o, Some p =>
      (PipelineType.AZDO,
       Some (AzDOPipeline
         {| IAzDOPipelineConfig.org := o;
            IAzDOPipelineConfig.project := p;
            IAzDOPipelineConfig.accessToken := getenv env AZDO_ACCESS_TOKEN |}))
  | _, _ =>
      match env_set env GITHUB_TOKEN with
      | Some tok =>
          (PipelineType.GITHUB_ACTIONS,
           Some (GithubActions {| IGithubActionsConfig.accessToken := Some tok |}))
      | None =>
          match env_set env GITLAB_TOKEN with
          | Some tok =>
              (PipelineType.GITLAB,
               Some (GitlabPipeline {| IGitlabPipelineConfig.accessToken := tok |}))
          | None => (PipelineType.AZDO, None)
          end
      end
  end.

(** [getReposConfig]: the first matching provider wins; [repoType] starts at
    0, which is [RepositoryType.AZDO]. *)
Definition getReposConfig (env : Env) : RepositoryType.t * option RepoConfig :=
  match env_set env AZDO_MANIFEST_REPO with
  | Some m =>
      (RepositoryType.AZDO,
       Some (AzDORepo
         {| IAzDORepoConfig.manifestRepo := m;
            IAzDORepoConfig.accessToken := getenv env AZDO_ACCESS_TOKEN |}))
  | None =>
      match env_set env GITHUB_MANIFEST_REPO,
            env_set env GITHUB_HLD_REPO,
            env_set env GITHUB_SOURCE_REPO with
      | Some m, Some h, Some s =>
          (RepositoryType.GITHUB,
           Some (GithubRepo
             {| IGithubRepoConfig.manifestRepo := m;
                IGithubRepoConfig.hldRepo := h;
                IGithubRepoConfig.sourceRepo := s;
                IGithubRepoConfig.accessToken := getenv env GITHUB_TOKEN |}))
      | _, _, _ =>
          match env_set env GITLAB_SOURCE_PROJECT_ID,
                env_set env GITLAB_HLD_PROJECT_ID,
                env_set env GITLAB_MANIFEST_PROJECT_ID,
                env_set env GITLAB_TOKEN with
          | Some s, Some h, Some m, Some tok =>
              (RepositoryType.GITLAB,
               Some (GitlabRepo
                 {| IGitlabRepoConfig.manifestProjectId := m;
                    IGitlabRepoConfig.hldRepoProjectId := h;
                    IGitlabRepoConfig.sourceRepoProjectId := s;
                    IGitlabRepoConfig.accessToken := tok |}))
          | _, _, _, _ => (RepositoryType.AZDO, None)
          end
      end
  end.

Definition unrecognized : string :=
  "Pipeline and/or repository could not be recognized.".

(** [getConfig]: both sub-configurations are objects when present, hence
    truthy; otherwise the function throws. *)
Definition getConfig (env : Env) : result IConfig :=
  let '(pipelineType, pipelineConfig) := getPipelineConfig env in
  let '(repoType, reposConfig) := getReposConfig env in
  match pipelineConfig, reposConfig with
  | Some pc, Some rc =>
      inr {| pipelineConfig := pc;
             repoConfig := rc;
             storageAccessKey := env_or_empty env STORAGE_ACCESS_KEY;
             storageAccountName := env_or_empty env STORAGE_ACCOUNT_NAME;
             storagePartitionKey := env_or_empty env STORAGE_PARTITION_KEY;
             storageTableName := env_or_empty env STORAGE_TABLE_NAME;
             repoType := repoType;
             pipelineType := pipelineType |}
  | _, _ => inl unrecognized
  end.

(** [a === b] on the numeric codes of the enums. *)
Definition strict_eq_number (v : value) (n : Z) : bool :=
  match v with VNumber m => Z.eqb m n | _ => false end.

(** The three predicates read every field through [config_object], as the
    compiled code does once the casts are erased. *)
Definition isAzdo (env : Env) : result bool :=
  config ← getConfig env;
  let o := config_object config in
  mret (strict_eq_number (get_prop o "pipelineType") (PipelineType.code PipelineType.AZDO)
        && defined (prop (get_prop o "pipelineConfig") "org")
        && defined (prop (get_prop o "pipelineConfig") "project")
        && defined (prop (get_prop o "repoConfig") "manifestRepo")).

Definition isGithubActions (env : Env) : result bool :=
  config ← getConfig env;
  let o := config_object config in
  mret (strict_eq_number (get_prop o "pipelineType")
          (PipelineType.code PipelineType.GITHUB_ACTIONS)
        && defined (prop (get_prop o "repoConfig") "sourceRepo")
        && defined (prop (get_prop o "repoConfig") "hldRepo")
        && defined (prop (get_prop o "repoConfig") "manifestRepo")).

Definition isGitlab (env : Env) : result bool :=
  config ← getConfig env;
  let o := config_object config in
  mret (strict_eq_number (get_prop o "pipelineType") (PipelineType.code PipelineType.GITLAB)
        && defined (prop (get_prop o "repoConfig") "sourceRepoProjectId")
        && defined (prop (get_prop o "repoConfig") "hldRepoProjectId")
        && defined (prop (get_prop o "repoConfig") "manifestProjectId")).

(** [a || b] on two calls that may throw: [b] runs only when [a] is false. *)
Definition or_else (a b : result bool) : result bool :=
  x ← a; if (x : bool) then inr true else b.

(** [isConfigValid]; [!!s] on a string is [s !== ""]. *)
Definition isConfigValid (env : Env) : result bool :=
  config ← getConfig env;
  provider ← or_else (isAzdo env) (or_else (isGithubActions env) (isGitlab env));
  mret (provider
        && truthy (get_prop (config_object config) "storageAccountName")
        && truthy (get_prop (config_object config) "storageAccessKey")
        && truthy (get_prop (config_object config) "storageTableName")
        && truthy (get_prop (config_object config) "storagePartitionKey")).

(** ** config.ts: cache refresh interval *)

(** A JavaScript number is an IEEE 754 double.  This program only makes
    integers: [NaN], the two infinities, and [Num z] for the double whose
    value is the integer [z].  [Num 0] stands for both zeros, which [===] and
    arithmetic comparisons do not tell apart. *)
Inductive jsnumber := NaN | Infinity (negative : bool) | Num (z : Z).

(** Doubles hold every integer of magnitude at most 2^53 exactly. *)
Definition safe_integer (z : Z) : Prop := Z.abs z <= 2 ^ 53.

(** The double nearest to the integer [z], ties to even: the magnitude keeps
    its 53 leading bits, the [e] bits below them are rounded off, and a
    result of 2^1024 or more is an infinity. *)
Definition round_to_double (z : Z) : jsnumber :=
  let a := Z.abs z in
  let e := Z.max 0 (Z.log2 a + 1 - 53) in
  let q := a / 2 ^ e in
  let r := a mod 2 ^ e in
  let q' :=
    if Z.ltb (2 * r) (2 ^ e) then q
    else if Z.ltb (2 ^ e) (2 * r) then q + 1
    else if Z.even q then q else q + 1 in
  let v := q' * 2 ^ e in
  if Z.leb (2 ^ 1024) v then Infinity (Z.ltb z 0) else Num (Z.sgn z * v).

(** The same two operations in the Standard Library's specification of
    binary64 (53 bits of precision, exponent of the infinities 1024), read
    back as a [jsnumber]; used to check [round_to_double] and [number_mul]. *)
Definition binary64_of_Z (z : Z) : SpecFloat.spec_float :=
  SpecFloat.binary_normalize 53 1024 z 0 false.

Definition of_binary64 (f : SpecFloat.spec_float) : jsnumber :=
  match f with
  | SpecFloat.S754_zero _ => Num 0
  | SpecFloat.S754_infinity negative => Infinity negative
  | SpecFloat.S754_nan => NaN
  | SpecFloat.S754_finite negative m e =>
      let a := if Z.ltb e 0 then Z.pos m / 2 ^ (- e) else Z.pos m * 2 ^ e in
      Num (if negative then - a else a)
  end.

(** Strings are sequences of bytes, the UTF-8 encoding of the JavaScript
    string.  White space of one byte: TAB, LF, VT, FF, CR and SPACE. *)
Definition is_white_space (c : ascii) : bool :=
  let n := nat_of_ascii c in
  ((9 <=? n)%nat && (n <=? 13)%nat) || (n =? 32)%nat.

(** White space of two bytes: U+00A0 (C2 A0). *)
Definition white_space_2 (c1 c2 : ascii) : bool :=
  ((nat_of_ascii c1 =? 194) && (nat_of_ascii c2 =? 160))%nat.

(** White space of three bytes: U+1680 (E1 9A 80), U+2000 to U+200A
    (E2 80 80 to E2 80 8A), U+2028 and U+2029 (E2 80 A8, E2 80 A9), U+202F
    (E2 80 AF), U+205F (E2 81 9F), U+3000 (E3 80 80) and U+FEFF (EF BB BF). *)
Definition white_space_3 (c1 c2 c3 : ascii) : bool :=
  let a := nat_of_ascii c1 in
  let b := nat_of_ascii c2 in
  let c := nat_of_ascii c3 in
  ((a =? 225) && (b =? 154) && (c =? 128)
   || (a =? 226) && (b =? 128)
      && ((128 <=? c) && (c <=? 138) || (c =? 168) || (c =? 169) || (c =? 175))
   || (a =? 226) && (b =? 129) && (c =? 159)
   || (a =? 227) && (b =? 128) && (c =? 128)
   || (a =? 239) && (b =? 187) && (c =? 191))%nat.

(** Drop the white space and line terminators [parseInt] skips at the
    start of a string. *)
Fixpoint trim_start (s : string) : string :=
  match s with
  | String c1 r1 =>
      if is_white_space c1 then trim_start r1
      else
        match r1 with
        | String c2 r2 =>
            if white_space_2 c1 c2 then trim_start r2
            else
              match r2 with
              | String c3 r3 => if white_space_3 c1 c2 c3 then trim_start r3 else s
              | EmptyString => s
              end
        | EmptyString => s
        end
  | EmptyString => EmptyString
  end.

(** The value of a decimal digit, [None] for any other character. *)
Definition digit_value (c : ascii) : option Z :=
  let n := nat_of_ascii c in
  if (48 <=? n)%nat && (n <=? 57)%nat then Some (Z.of_nat (n - 48)) else None.

(** The value of the longest prefix of decimal digits, starting from the
    value [acc] of the digits already read; [None] when there is none. *)
Fixpoint parse_digits (s : string) (acc : option Z) : option Z :=
  match s with
  | String c s' =>
      match digit_value c with
      | Some d => parse_digits s' (Some (10 * default 0 acc + d))
      | None => acc
      end
  | EmptyString => acc
  end.

(** The built-in [parseInt(s, 10)] of ECMAScript: skip leading white space,
    read an optional sign, then the longest run of decimal digits; [NaN]
    when that run is empty, else the double nearest to the integer the digits
    write (they are read exactly and rounded once).  Whatever follows the
    digits is ignored. *)
Definition parseInt (s : string) : jsnumber :=
  let '(sign, rest) :=
    match trim_start s with
    | String c r =>
        if Ascii.eqb c "-" then (-1, r)
        else if Ascii.eqb c "+" then (1, r)
        else (1, String c r)
    | EmptyString => (1, EmptyString)
    end in
  match parse_digits rest None with
  | Some m => round_to_double (sign * m)
  | None => NaN
  end.

Definition isNaN (n : jsnumber) : bool :=
  match n with NaN => true | _ => false end.

(** [a * b] on doubles of integer value: the exact product, rounded; an
    infinity times zero is [NaN]. *)
Definition number_mul (a b : jsnumber) : jsnumber :=
  match a, b with
  | NaN, _ | _, NaN => NaN
  | Num x, Num y => round_to_double (x * y)
  | Infinity sa, Infinity sb => Infinity (xorb sa sb)
  | Infinity sa, Num y =>
      if Z.eqb y 0 then NaN else Infinity (xorb sa (Z.ltb y 0))
  | Num x, Infinity sb =>
      if Z.eqb x 0 then NaN else Infinity (xorb (Z.ltb x 0) sb)
  end.

(** [cacheRefreshInterval]; the function has no [throw] and calls nothing
    that throws, so it is a total function to numbers. *)
Definition cacheRefreshInterval (env : Env) : jsnumber :=
  let interval :=
    match env_set env CACHE_REFRESH_INTERVAL_IN_SEC with
    | Some s => s
    | None => "30"
    end in
  let val := parseInt interval in
  if isNaN val then Num (30 * 1000) else number_mul val (Num 1000).

(** ** lib/author.ts *)

Module Author.

(** Modelled from the spec: the declaration of [IDeploymentData]
    ([./common]) and of the build results it carries is not among the
    sources.  A deployment optionally carries [srcToDockerBuild] and
    [hldToManifestBuild], each optionally carrying [sourceVersion] (a commit
    hash) and [repository] (a repository reference), and optionally the raw
    URLs [sourceRepo] and [hldRepo].  Only these fields are read by [get]. *)
Record IBuild (Repo : Type) := {
  sourceVersion : option string;
  repository : option Repo }.

Record IDeploymentData (Repo : Type) := {
  srcToDockerBuild : option (IBuild Repo);
  hldToManifestBuild : option (IBuild Repo);
  sourceRepo : option string;
  hldRepo : option string }.

Arguments sourceVersion {Repo} _.
Arguments repository {Repo} _.
Arguments srcToDockerBuild {Repo} _.
Arguments hldToManifestBuild {Repo} _.
Arguments sourceRepo {Repo} _.
Arguments hldRepo {Repo} _.

(** What a call of [get] that does not throw does. *)
Inductive outcome (Repo : Type) :=
| FetchAuthor (repo : Repo) (commit : string) (accessToken : value)
    (** [return fetchAuthor(repo, commit, accessToken)] *)
| Absent (log : string)
    (** [console.log(log); return undefined] *).

Arguments FetchAuthor {Repo} _ _ _.
Arguments Absent {Repo} _.

(** The two variables [commit] and [repo] of [get]. *)
Record selection (Repo : Type) := {
  commit : option string;
  repo : option Repo }.

Arguments commit {Repo} _.
Arguments repo {Repo} _.

(** Truthiness of an optional string: defined and not empty. *)
Definition present (o : option string) : bool :=
  match o with
  | Some s => negb (String.eqb s "")
  | None => false
  end.

(** [a || b] on optional strings. *)
Definition string_or (a b : option string) : option string :=
  if present a then a else b.

Section Get.
(** The repository references of the library ([IAzureDevOpsRepo],
    [IGitHub], [IGitlabRepo]) are objects, hence truthy when defined; the
    library's [getRepositoryFromURL] may yield no reference. *)
Context {Repo : Type}.
Variable getRepositoryFromURL : string → option Repo.

(** [a || b] on optional repository references. *)
Definition repo_or (a b : option Repo) : option Repo :=
  match a with Some _ => a | None => b end.

(** [b?.sourceVersion] and [b?.repository] *)
Definition version_of (b : option (IBuild Repo)) : option string :=
  b ≫= sourceVersion.
Definition repository_of (b : option (IBuild Repo)) : option Repo :=
  b ≫= repository.

(** Lines 18-24: the initial choice from the build results. *)
Definition from_builds (d : IDeploymentData Repo) : selection Repo :=
  {| commit := string_or (version_of (srcToDockerBuild d))
                         (version_of (hldToManifestBuild d));
     repo := repo_or (repository_of (srcToDockerBuild d))
                     (repository_of (hldToManifestBuild d)) |}.

(** Lines 25-28: [if (!repo && deployment.sourceRepo)]. *)
Definition sourceRepo_branch (d : IDeploymentData Repo) (s : selection Repo)
  : selection Repo :=
  match repo s, sourceRepo d with
  | None, Some url =>
      if present (Some url) then
        {| repo := getRepositoryFromURL url;
           commit := version_of (srcToDockerBuild d) |}
      else s
  | _, _ => s
  end.

(** Lines 29-32: [if (!repo && deployment.hldRepo)]. *)
Definition hldRepo_branch (d : IDeploymentData Repo) (s : selection Repo)
  : selection Repo :=
  match repo s, hldRepo d with
  | None, Some url =>
      if present (Some url) then
        {| repo := getRepositoryFromURL url;
           commit := version_of (hldToManifestBuild d) |}
      else s
  | _, _ => s
  end.

(** The pair [(commit, repo)] tested on line 34. *)
Definition select (d : IDeploymentData Repo) : selection Repo :=
  hldRepo_branch d (sourceRepo_branch d (from_builds d)).

Definition not_recognized : string := "Repository could not be recognized".

(** The third argument of [fetchAuthor]:
    [config.sourceRepoAccessToken || config.pipelineAccessToken]. *)
Definition access_token (config : IConfig) : value :=
  js_or (get_prop (config_object config) "sourceRepoAccessToken")
        (get_prop (config_object config) "pipelineAccessToken").

(** [get]: [getConfig()] runs first and may throw. *)
Definition get (env : Env) (d : IDeploymentData Repo) : result (outcome Repo) :=
  config ← getConfig env;
  let s := select d in
  match commit s, repo s with
  | Some c, Some r =>
      if present (Some c) then inr (FetchAuthor r c (access_token config))
      else inr (Absent not_recognized)
  | _, _ => inr (Absent not_recognized)
  end.
End Get.

End Author.

(** ** Vocabulary of the statements *)

(** A variable is set when [process.env.K] is truthy: defined and not the
    empty string.  This is the only test the source applies to a variable. *)
Definition is_set (env : Env) (k : string) : bool :=
  match env_set env k with Some _ => true | None => false end.

Inductive Provider := Azdo | Github | Gitlab.

(** The variables a provider requires for its pipeline and for its
    repositories. *)
Definition pipeline_group (p : Provider) : list string :=
  match p with
  | Azdo => [AZDO_ORG; AZDO_PROJECT]
  | Github => [GITHUB_TOKEN]
  | Gitlab => [GITLAB_TOKEN]
  end.

Definition repo_group (p : Provider) : list string :=
  match p with
  | Azdo => [AZDO_MANIFEST_REPO]
  | Github => [GITHUB_MANIFEST_REPO; GITHUB_HLD_REPO; GITHUB_SOURCE_REPO]
  | Gitlab => [GITLAB_SOURCE_PROJECT_ID; GITLAB_HLD_PROJECT_ID;
               GITLAB_MANIFEST_PROJECT_ID; GITLAB_TOKEN]
  end.

Definition satisfied (env : Env) (group : list string) : bool :=
  forallb (is_set env) group.

Definition others (p : Provider) : list Provider :=
  match p with
  | Azdo => [Github; Gitlab]
  | Github => [Azdo; Gitlab]
  | Gitlab => [Azdo; Github]
  end.

(** Exactly the groups of provider [p] are satisfied: its pipeline group and
    its repository group are, and neither group of any other provider is. *)
Definition only_provider (env : Env) (p : Provider) : bool :=
  satisfied env (pipeline_group p) && satisfied env (repo_group p)
  && forallb (λ q, negb (satisfied env (pipeline_group q))
                   && negb (satisfied env (repo_group q))) (others p).

Definition pipeline_tag (p : Provider) : PipelineType.t :=
  match p with
  | Azdo => PipelineType.AZDO
  | Github => PipelineType.GITHUB_ACTIONS
  | Gitlab => PipelineType.GITLAB
  end.

Definition repo_tag (p : Provider) : RepositoryType.t :=
  match p with
  | Azdo => RepositoryType.AZDO
  | Github => RepositoryType.GITHUB
  | Gitlab => RepositoryType.GITLAB
  end.

(** The provider whose shape a sub-configuration has. *)
Definition pipeline_shape (c : PipelineConfig) : Provider :=
  match c with AzDOPipeline _ => Azdo | GithubActions _ => Github | GitlabPipeline _ => Gitlab end.

Definition repo_shape (c : RepoConfig) : Provider :=
  match c with AzDORepo _ => Azdo | GithubRepo _ => Github | GitlabRepo _ => Gitlab end.

(** The repository shapes that have a [manifestRepo] property. *)
Definition has_manifestRepo (r : RepoConfig) : bool :=
  match r with AzDORepo _ | GithubRepo _ => true | GitlabRepo _ => false end.

Definition is_provider (p q : Provider) : bool :=
  match p, q with
  | Azdo, Azdo | Github, Github | Gitlab, Gitlab => true
  | _, _ => false
  end.

(** Exactly one of three booleans. *)
Definition exactly_one (a b c : bool) : bool :=
  (a && negb b && negb c) || (negb a && b && negb c) || (negb a && negb b && c).

Definition nonempty (s : string) : bool := negb (String.eqb s "").

(** *** Integer strings *)

Inductive Sign := NoSign | Plus | Minus.

Definition sign_string (sg : Sign) : string :=
  match sg with NoSign => "" | Plus => "+" | Minus => "-" end.

Definition sign_factor (sg : Sign) : Z :=
  match sg with Minus => -1 | _ => 1 end.

(** The character of a decimal digit [d < 10]. *)
Definition digit_char (d : nat) : ascii := ascii_of_nat (48 + d).

Fixpoint digits_string (ds : list nat) : string :=
  match ds with
  | [] => EmptyString
  | d :: ds' => String (digit_char d) (digits_string ds')
  end.

(** The number written by the digits [ds], most significant first, after
    the digits of [acc]. *)
Fixpoint digits_value (ds : list nat) (acc : Z) : Z :=
  match ds with
  | [] => acc
  | d :: ds' => digits_value ds' (10 * acc + Z.of_nat d)
  end.

(** [s] is a valid integer string for [n]: an optional sign followed by one
    or more decimal digits. *)
Definition integer_string (s : string) (n : Z) : Prop :=
  ∃ sg ds, ds ≠ [] ∧ Forall (λ d, (d < 10)%nat) ds
           ∧ s = String.append (sign_string sg) (digits_string ds)
           ∧ n = sign_factor sg * digits_value ds 0.


(** *** Variables read, and the environments each predicate accepts *)

(** The variables [getPipelineConfig] reads. *)
Definition pipeline_vars : list string :=
  [AZDO_ORG; AZDO_PROJECT; AZDO_ACCESS_TOKEN; GITHUB_TOKEN; GITLAB_TOKEN].

(** The variables [getReposConfig] reads. *)
Definition repo_vars : list string :=
  [AZDO_MANIFEST_REPO; AZDO_ACCESS_TOKEN;
   GITHUB_MANIFEST_REPO; GITHUB_HLD_REPO; GITHUB_SOURCE_REPO; GITHUB_TOKEN;
   GITLAB_SOURCE_PROJECT_ID; GITLAB_HLD_PROJECT_ID; GITLAB_MANIFEST_PROJECT_ID;
   GITLAB_TOKEN].

(** Two environments hold the same value, or both none, for each variable
    of [vars]. *)
Definition agree_on (vars : list string) (env1 env2 : Env) : Prop :=
  Forall (λ k, getenv env1 k = getenv env2 k) vars.

(** The variable that holds a provider's access token. *)
Definition token_var (p : Provider) : string :=
  match p with
  | Azdo => AZDO_ACCESS_TOKEN
  | Github => GITHUB_TOKEN
  | Gitlab => GITLAB_TOKEN
  end.

(** [c.accessToken] on a sub-configuration. *)
Definition pipeline_token (c : PipelineConfig) : value :=
  get_prop (pipeline_object c) "accessToken".

Definition repo_token (c : RepoConfig) : value :=
  get_prop (repo_object c) "accessToken".

(** The fields a selection tests before it builds a sub-configuration. *)
Definition pipeline_required (c : PipelineConfig) : list value :=
  match c with
  | AzDOPipeline _ =>
      [get_prop (pipeline_object c) "org"; get_prop (pipeline_object c) "project"]
  | GithubActions _ | GitlabPipeline _ => [get_prop (pipeline_object c) "accessToken"]
  end.

Definition repo_required (c : RepoConfig) : list value :=
  match c with
  | AzDORepo _ => [get_prop (repo_object c) "manifestRepo"]
  | GithubRepo _ =>
      [get_prop (repo_object c) "manifestRepo"; get_prop (repo_object c) "hldRepo";
       get_prop (repo_object c) "sourceRepo"]
  | GitlabRepo _ =>
      [get_prop (repo_object c) "sourceRepoProjectId";
       get_prop (repo_object c) "hldRepoProjectId";
       get_prop (repo_object c) "manifestProjectId";
       get_prop (repo_object c) "accessToken"]
  end.

(** A non-empty string value. *)
Definition nonempty_string (v : value) : bool :=
  match v with VString s => nonempty s | _ => false end.

(** The environments in which [isAzdo], [isGithubActions] and [isGitlab]
    return true, in terms of the variables alone. *)
Definition azdo_accepts (env : Env) : bool :=
  satisfied env (pipeline_group Azdo)
  && (is_set env AZDO_MANIFEST_REPO || satisfied env (repo_group Github)).

Definition github_accepts (env : Env) : bool :=
  negb (satisfied env (pipeline_group Azdo))
  && is_set env GITHUB_TOKEN
  && negb (is_set env AZDO_MANIFEST_REPO)
  && satisfied env (repo_group Github).

Definition gitlab_accepts (env : Env) : bool :=
  negb (satisfied env (pipeline_group Azdo))
  && negb (is_set env GITHUB_TOKEN)
  && negb (is_set env AZDO_MANIFEST_REPO)
  && negb (satisfied env (repo_group Github))
  && satisfied env (repo_group Gitlab).

(** The provider each selection settles on, as a chain of tests on the
    variables. *)
Definition pipeline_choice (env : Env) : option Provider :=
  if satisfied env (pipeline_group Azdo) then Some Azdo
  else if is_set env GITHUB_TOKEN then Some Github
  else if is_set env GITLAB_TOKEN then Some Gitlab
  else None.

Definition repo_choice (env : Env) : option Provider :=
  if is_set env AZDO_MANIFEST_REPO then Some Azdo
  else if satisfied env (repo_group Github) then Some Github
  else if satisfied env (repo_group Gitlab) then Some Gitlab
  else None.

Definition storage_vars : list string :=
  [STORAGE_ACCOUNT_NAME; STORAGE_ACCESS_KEY; STORAGE_TABLE_NAME; STORAGE_PARTITION_KEY].

(** *** Strings around an integer *)

Fixpoint all_white_space (s : string) : bool :=
  match s with
  | EmptyString => true
  | String c s' => is_white_space c && all_white_space s'
  end.

(** [s] begins with a decimal digit. *)
Definition starts_with_digit (s : string) : bool :=
  match s with
  | EmptyString => false
  | String c _ => match digit_value c with Some _ => true | None => false end
  end.

(** ** Sample environments and deployments *)

Module Samples.

Definition storage : list (string * string) :=
  [(STORAGE_ACCOUNT_NAME, "account"); (STORAGE_ACCESS_KEY, "key");
   (STORAGE_TABLE_NAME, "table"); (STORAGE_PARTITION_KEY, "partition")].

Definition azdo_vars : list (string * string) :=
  [(AZDO_ORG, "org"); (AZDO_PROJECT, "project");
   (AZDO_ACCESS_TOKEN, "azdo-token"); (AZDO_MANIFEST_REPO, "manifest")].

Definition github_vars : list (string * string) :=
  [(GITHUB_TOKEN, "gh-token"); (GITHUB_MANIFEST_REPO, "gh-manifest");
   (GITHUB_HLD_REPO, "gh-hld"); (GITHUB_SOURCE_REPO, "gh-source")].

Definition gitlab_vars : list (string * string) :=
  [(GITLAB_TOKEN, "gl-token"); (GITLAB_SOURCE_PROJECT_ID, "1");
   (GITLAB_HLD_PROJECT_ID, "2"); (GITLAB_MANIFEST_PROJECT_ID, "3")].

Definition env_of (l : list (string * string)) : Env := list_to_map l.

Definition env_empty : Env := ∅.
Definition env_azdo : Env := env_of (azdo_vars ++ storage).
Definition env_github : Env := env_of (github_vars ++ storage).
Definition env_gitlab : Env := env_of (gitlab_vars ++ storage).
Definition env_all : Env := env_of (azdo_vars ++ github_vars ++ gitlab_vars ++ storage).
Definition env_github_gitlab : Env := env_of (github_vars ++ gitlab_vars ++ storage).

(** Azure DevOps pipeline with GitHub repositories. *)
Definition env_mixed : Env :=
  env_of [(AZDO_ORG, "org"); (AZDO_PROJECT, "project");
          (GITHUB_MANIFEST_REPO, "gh-manifest"); (GITHUB_HLD_REPO, "gh-hld");
          (GITHUB_SOURCE_REPO, "gh-source")].

(** Azure DevOps, with the storage table name left empty. *)
Definition env_azdo_no_table : Env :=
  env_of (azdo_vars ++
          [(STORAGE_ACCOUNT_NAME, "account"); (STORAGE_ACCESS_KEY, "key");
           (STORAGE_TABLE_NAME, ""); (STORAGE_PARTITION_KEY, "partition")]).

(** The configurations [getConfig] returns in three of them. *)
Definition cfg_azdo_with (table : string) : IConfig :=
  {| pipelineConfig :=
       AzDOPipeline
         {| IAzDOPipelineConfig.org := "org";
            IAzDOPipelineConfig.project := "project";
            IAzDOPipelineConfig.accessToken := Some "azdo-token" |};
     repoConfig :=
       AzDORepo
         {| IAzDORepoConfig.manifestRepo := "manifest";
            IAzDORepoConfig.accessToken := Some "azdo-token" |};
     storageAccessKey := "key";
     storageAccountName := "account";
     storagePartitionKey := "partition";
     storageTableName := table;
     repoType := RepositoryType.AZDO;
     pipelineType := PipelineType.AZDO |}.

Definition cfg_azdo : IConfig := cfg_azdo_with "table".
Definition cfg_azdo_no_table : IConfig := cfg_azdo_with "".

Definition cfg_mixed : IConfig :=
  {| pipelineConfig :=
       AzDOPipeline
         {| IAzDOPipelineConfig.org := "org";
            IAzDOPipelineConfig.project := "project";
            IAzDOPipelineConfig.accessToken := None |};
     repoConfig :=
       GithubRepo
         {| IGithubRepoConfig.manifestRepo := "gh-manifest";
            IGithubRepoConfig.hldRepo := "gh-hld";
            IGithubRepoConfig.sourceRepo := "gh-source";
            IGithubRepoConfig.accessToken := None |};
     storageAccessKey := "";
     storageAccountName := "";
     storagePartitionKey := "";
     storageTableName := "";
     repoType := RepositoryType.GITHUB;
     pipelineType := PipelineType.AZDO |}.

(** Integers around the places where rounding changes: zero, the safe
    range and its edge, ties and near ties above it, and the overflow
    threshold. *)
Definition integers : list Z :=
  [0; 1; -1; 30; 1000; -45000; 2 ^ 53 - 1; 2 ^ 53; 2 ^ 53 + 1; 2 ^ 53 + 2;
   2 ^ 53 + 3; - (2 ^ 53 + 1); 2 ^ 54 + 2; 2 ^ 54 + 6; 2 ^ 60 + 2 ^ 7 + 1;
   2 ^ 60 + 2 ^ 7 - 1; 9007199254740993000; 123456789012345678901234567890;
   - 987654321098765432109876543210; 10 ^ 22; 10 ^ 23; 10 ^ 308; 2 ^ 1023;
   2 ^ 1024 - 2 ^ 971; 2 ^ 1024 - 2 ^ 970 - 1; 2 ^ 1024 - 2 ^ 970;
   2 ^ 1024 - 1; 2 ^ 1024; - 2 ^ 1024; 10 ^ 400; - 10 ^ 400].


(** A one followed by [n] zeros. *)
Fixpoint zeros (n : nat) : string :=
  match n with O => EmptyString | S n' => String "0" (zeros n') end.
Definition power_of_ten (n : nat) : string := String "1" (zeros n).

(** U+00A0 (no-break space, the bytes C2 A0), then 42. *)
Definition nbsp_42 : string :=
  String (ascii_of_nat 194) (String (ascii_of_nat 160) "42").

(** The organization is defined but empty. *)
Definition env_empty_org : Env :=
  env_of [(AZDO_ORG, ""); (AZDO_PROJECT, "project"); (AZDO_MANIFEST_REPO, "")].

Definition env_interval (s : string) : Env :=
  env_of [(CACHE_REFRESH_INTERVAL_IN_SEC, s)].

(** Repository references are named by a string here; a URL resolves to
    the reference of the same name, and the URL ["unknown"] to none. *)
Definition resolver (url : string) : option string :=
  if String.eqb url "unknown" then None else Some url.

Definition build (v : option string) (r : option string) : Author.IBuild string :=
  {| Author.sourceVersion := v; Author.repository := r |}.

(** [srcToDockerBuild = {sourceVersion: "c1", repository: R}] *)
Definition dep_build : Author.IDeploymentData string :=
  {| Author.srcToDockerBuild := Some (build (Some "c1") (Some "R"));
     Author.hldToManifestBuild := None;
     Author.sourceRepo := None;
     Author.hldRepo := None |}.

(** No repository on either build, a [sourceRepo] URL, and both builds
    carrying a commit. *)
Definition dep_sourceRepo : Author.IDeploymentData string :=
  {| Author.srcToDockerBuild := Some (build (Some "c2") None);
     Author.hldToManifestBuild := Some (build (Some "h1") None);
     Author.sourceRepo := Some "https://github.com/org/source";
     Author.hldRepo := Some "https://github.com/org/hld" |}.

(** [sourceRepo] is set but [srcToDockerBuild] is absent altogether. *)
Definition dep_no_src_build : Author.IDeploymentData string :=
  {| Author.srcToDockerBuild := None;
     Author.hldToManifestBuild := Some (build (Some "h1") None);
     Author.sourceRepo := Some "https://github.com/org/source";
     Author.hldRepo := Some "https://github.com/org/hld" |}.

(** As [dep_sourceRepo], with a [sourceRepo] URL the resolver does not
    recognize. *)
Definition dep_unknown_source : Author.IDeploymentData string :=
  {| Author.srcToDockerBuild := Some (build (Some "c2") None);
     Author.hldToManifestBuild := Some (build (Some "h1") None);
     Author.sourceRepo := Some "unknown";
     Author.hldRepo := Some "https://github.com/org/hld" |}.

(** The repository comes from [srcToDockerBuild], which has no commit; the
    commit comes from [hldToManifestBuild]. *)
Definition dep_cross : Author.IDeploymentData string :=
  {| Author.srcToDockerBuild := Some (build None (Some "R"));
     Author.hldToManifestBuild := Some (build (Some "h1") (Some "H"));
     Author.sourceRepo := Some "https://github.com/org/source";
     Author.hldRepo := None |}.

(** No repository on either build, an empty [sourceRepo] and an [hldRepo]
    URL. *)
Definition dep_hldRepo : Author.IDeploymentData string :=
  {| Author.srcToDockerBuild := Some (build (Some "c2") None);
     Author.hldToManifestBuild := Some (build (Some "h1") None);
     Author.sourceRepo := Some "";
     Author.hldRepo := Some "https://github.com/org/hld" |}.

(** Repositories and URLs, but no commit anywhere. *)
Definition dep_no_commit : Author.IDeploymentData string :=
  {| Author.srcToDockerBuild := Some (build None (Some "R"));
     Author.hldToManifestBuild := Some (build (Some "") None);
     Author.sourceRepo := Some "https://github.com/org/source";
     Author.hldRepo := Some "https://github.com/org/hld" |}.

(** Another resolver, which recognizes nothing. *)
Definition no_resolver (url : string) : option string := None.

(** GitLab repositories; the GitLab token they need is there. *)
Definition cfg_gitlab_repo : IGitlabRepoConfig.t :=
  {| IGitlabRepoConfig.manifestProjectId := "3";
     IGitlabRepoConfig.hldRepoProjectId := "2";
     IGitlabRepoConfig.sourceRepoProjectId := "1";
     IGitlabRepoConfig.accessToken := "gl-token" |}.

(** GitHub Actions pipeline with Azure DevOps repositories. *)
Definition env_github_azdo_repo : Env :=
  env_of ([(GITHUB_TOKEN, "gh-token"); (AZDO_MANIFEST_REPO, "manifest")] ++ storage).

(** The GitHub repositories of [env_mixed], and no pipeline. *)
Definition env_github_repos_only : Env :=
  env_of [(GITHUB_MANIFEST_REPO, "gh-manifest"); (GITHUB_HLD_REPO, "gh-hld");
          (GITHUB_SOURCE_REPO, "gh-source"); (STORAGE_TABLE_NAME, "table")].

End Samples.

(** * Properties *)

(** ** Environment lookups *)

Lemma env_set_Some (env : Env) (k s : string) :
  env_set env k = Some s ↔ getenv env k = Some s ∧ s ≠ "".
Proof.
  unfold env_set. destruct (getenv env k) as [v|]; [|intuition congruence].
  destruct (String.eqb_spec v ""); subst; intuition congruence.
Qed.

Lemma env_set_None (env : Env) (k : string) :
  env_set env k = None ↔ getenv env k = None ∨ getenv env k = Some "".
Proof.
  unfold env_set. destruct (getenv env k) as [v|]; [|intuition congruence].
  destruct (String.eqb_spec v ""); subst; intuition congruence.
Qed.

Lemma is_set_true (env : Env) (k : string) :
  is_set env k = true ↔ ∃ s, env_set env k = Some s.
Proof.
  unfold is_set. destruct (env_set env k); split;
    [eauto|reflexivity|discriminate|intros [? ?]; discriminate].
Qed.

Lemma is_set_false (env : Env) (k : string) :
  is_set env k = false ↔ env_set env k = None.
Proof. unfold is_set. destruct (env_set env k); intuition congruence. Qed.

(** Split on every variable the goal still tests, dropping the cases the
    hypotheses exclude. *)
Ltac split_env :=
  repeat match goal with
    | H : context [match env_set ?e ?k with _ => _ end] |- _ =>
        destruct (env_set e k) eqn:?; simpl in H; try discriminate H
    | |- context [match env_set ?e ?k with _ => _ end] =>
        destruct (env_set e k) eqn:?; simpl; try discriminate
    end.

(** ** Pipeline and repository selection *)

(** C6: pipeline selection is first match wins, in the order Azure DevOps,
    GitHub Actions, GitLab.  When the organization and the project are both
    set the Azure DevOps pipeline is selected, whatever the GitHub and GitLab
    tokens are; otherwise, when the GitHub token is set, GitHub Actions is
    selected, whatever the GitLab token is; otherwise, when the GitLab token
    is set, GitLab is selected; otherwise there is no pipeline
    configuration. *)
Theorem getPipelineConfig_first_match (env : Env) :
  (∀ o p, env_set env AZDO_ORG = Some o → env_set env AZDO_PROJECT = Some p →
     getPipelineConfig env =
       (PipelineType.AZDO,
        Some (AzDOPipeline
          {| IAzDOPipelineConfig.org := o;
             IAzDOPipelineConfig.project := p;
             IAzDOPipelineConfig.accessToken := getenv env AZDO_ACCESS_TOKEN |})))
  ∧ (is_set env AZDO_ORG && is_set env AZDO_PROJECT = false →
     (∀ tok, env_set env GITHUB_TOKEN = Some tok →
        getPipelineConfig env =
          (PipelineType.GITHUB_ACTIONS,
           Some (GithubActions {| IGithubActionsConfig.accessToken := Some tok |})))
     ∧ (is_set env GITHUB_TOKEN = false →
        (∀ tok, env_set env GITLAB_TOKEN = Some tok →
           getPipelineConfig env =
             (PipelineType.GITLAB,
              Some (GitlabPipeline {| IGitlabPipelineConfig.accessToken := tok |})))
        ∧ (is_set env GITLAB_TOKEN = false →
           getPipelineConfig env = (PipelineType.AZDO, None)))).
Proof.
  unfold getPipelineConfig, is_set.
  split; [intros o p -> ->; reflexivity|].
  intros Hazdo. split; [intros tok Hgh|intros Hgh; split; [intros tok Hgl|intros Hgl]].
  all: split_env; simplify_eq; reflexivity.
Qed.

Lemma getPipelineConfig_first_match_witness :
  fst (getPipelineConfig Samples.env_all) = PipelineType.AZDO
  ∧ fst (getPipelineConfig Samples.env_github_gitlab) = PipelineType.GITHUB_ACTIONS
  ∧ fst (getPipelineConfig Samples.env_gitlab) = PipelineType.GITLAB
  ∧ getPipelineConfig Samples.env_empty = (PipelineType.AZDO, None).
Proof.
  split; [|split; [|split]].
  - rewrite (proj1 (getPipelineConfig_first_match Samples.env_all) "org" "project");
      reflexivity.
  - destruct (getPipelineConfig_first_match Samples.env_github_gitlab) as [_ H].
    destruct (H eq_refl) as [H1 _].
    rewrite (H1 "gh-token"); reflexivity.
  - destruct (getPipelineConfig_first_match Samples.env_gitlab) as [_ H].
    destruct (H eq_refl) as [_ H1]. destruct (H1 eq_refl) as [H2 _].
    rewrite (H2 "gl-token"); reflexivity.
  - destruct (getPipelineConfig_first_match Samples.env_empty) as [_ H].
    destruct (H eq_refl) as [_ H1]. destruct (H1 eq_refl) as [_ H2].
    exact (H2 eq_refl).
Defined.

(** C7: repository selection is first match wins, in the order Azure DevOps,
    GitHub, GitLab.  When the Azure DevOps manifest repository is set, the
    Azure DevOps configuration is built from it and the optional access
    token, whatever the GitHub and GitLab variables are; otherwise, when the
    GitHub manifest, HLD and source repositories are all set, the GitHub
    configuration is built; otherwise, when the three GitLab project ids and
    the GitLab token are all set, the GitLab configuration is built;
    otherwise there is no repository configuration. *)
Theorem getReposConfig_first_match (env : Env) :
  (∀ m, env_set env AZDO_MANIFEST_REPO = Some m →
     getReposConfig env =
       (RepositoryType.AZDO,
        Some (AzDORepo
          {| IAzDORepoConfig.manifestRepo := m;
             IAzDORepoConfig.accessToken := getenv env AZDO_ACCESS_TOKEN |})))
  ∧ (is_set env AZDO_MANIFEST_REPO = false →
     (∀ m h s,
        env_set env GITHUB_MANIFEST_REPO = Some m →
        env_set env GITHUB_HLD_REPO = Some h →
        env_set env GITHUB_SOURCE_REPO = Some s →
        getReposConfig env =
          (RepositoryType.GITHUB,
           Some (GithubRepo
             {| IGithubRepoConfig.manifestRepo := m;
                IGithubRepoConfig.hldRepo := h;
                IGithubRepoConfig.sourceRepo := s;
                IGithubRepoConfig.accessToken := getenv env GITHUB_TOKEN |})))
     ∧ (satisfied env (repo_group Github) = false →
        (∀ s h m tok,
           env_set env GITLAB_SOURCE_PROJECT_ID = Some s →
           env_set env GITLAB_HLD_PROJECT_ID = Some h →
           env_set env GITLAB_MANIFEST_PROJECT_ID = Some m →
           env_set env GITLAB_TOKEN = Some tok →
           getReposConfig env =
             (RepositoryType.GITLAB,
              Some (GitlabRepo
                {| IGitlabRepoConfig.manifestProjectId := m;
                   IGitlabRepoConfig.hldRepoProjectId := h;
                   IGitlabRepoConfig.sourceRepoProjectId := s;
                   IGitlabRepoConfig.accessToken := tok |})))
        ∧ (satisfied env (repo_group Gitlab) = false →
           getReposConfig env = (RepositoryType.AZDO, None)))).
Proof.
  unfold getReposConfig, satisfied, repo_group, is_set. simpl.
  split; [intros m ->; reflexivity|].
  intros Hazdo.
  split; [intros m h s Hm Hh Hs
         |intros Hgh; split; [intros s h m tok Hs Hh Hm Htok|intros Hgl]].
  all: split_env; simplify_eq; reflexivity.
Qed.

Lemma getReposConfig_first_match_witness :
  fst (getReposConfig Samples.env_all) = RepositoryType.AZDO
  ∧ fst (getReposConfig Samples.env_github_gitlab) = RepositoryType.GITHUB
  ∧ fst (getReposConfig Samples.env_gitlab) = RepositoryType.GITLAB
  ∧ getReposConfig Samples.env_empty = (RepositoryType.AZDO, None).
Proof.
  split; [|split; [|split]].
  - rewrite (proj1 (getReposConfig_first_match Samples.env_all) "manifest");
      reflexivity.
  - destruct (getReposConfig_first_match Samples.env_github_gitlab) as [_ H].
    destruct (H eq_refl) as [H1 _].
    rewrite (H1 "gh-manifest" "gh-hld" "gh-source"); reflexivity.
  - destruct (getReposConfig_first_match Samples.env_gitlab) as [_ H].
    destruct (H eq_refl) as [_ H1]. destruct (H1 eq_refl) as [H2 _].
    rewrite (H2 "1" "2" "3" "gl-token"); reflexivity.
  - destruct (getReposConfig_first_match Samples.env_empty) as [_ H].
    destruct (H eq_refl) as [_ H1]. destruct (H1 eq_refl) as [_ H2].
    exact (H2 eq_refl).
Defined.

(** ** getConfig *)

Lemma getConfig_inr (env : Env) (cfg : IConfig) :
  getConfig env = inr cfg →
  getPipelineConfig env = (pipelineType cfg, Some (pipelineConfig cfg))
  ∧ getReposConfig env = (repoType cfg, Some (repoConfig cfg))
  ∧ storageAccessKey cfg = env_or_empty env STORAGE_ACCESS_KEY
  ∧ storageAccountName cfg = env_or_empty env STORAGE_ACCOUNT_NAME
  ∧ storagePartitionKey cfg = env_or_empty env STORAGE_PARTITION_KEY
  ∧ storageTableName cfg = env_or_empty env STORAGE_TABLE_NAME.
Proof.
  unfold getConfig.
  destruct (getPipelineConfig env) as [pt [pc|]], (getReposConfig env) as [rt [rc|]];
    intros H; simplify_eq; simpl; auto 10.
Qed.

(** C3: [getConfig] returns a configuration exactly when the pipeline
    resolution and the repository resolution both produce one, and the
    configuration it returns holds these two; when either is absent it throws
    the error "Pipeline and/or repository could not be recognized." and
    returns no configuration. *)
Theorem getConfig_both_or_throw (env : Env) :
  ((∃ cfg, getConfig env = inr cfg)
   ↔ is_Some (snd (getPipelineConfig env)) ∧ is_Some (snd (getReposConfig env)))
  ∧ (∀ cfg, getConfig env = inr cfg →
       snd (getPipelineConfig env) = Some (pipelineConfig cfg)
       ∧ snd (getReposConfig env) = Some (repoConfig cfg))
  ∧ (snd (getPipelineConfig env) = None ∨ snd (getReposConfig env) = None
     ↔ getConfig env = inl "Pipeline and/or repository could not be recognized.").
Proof.
  split; [|split].
  - unfold getConfig.
    destruct (getPipelineConfig env) as [pt [pc|]], (getReposConfig env) as [rt [rc|]];
      simpl; split.
    all: try (intros [cfg H]; discriminate H).
    all: try (intros [[x Hx] [y Hy]]; discriminate).
    + intros _. split; eexists; reflexivity.
    + intros _. eexists; reflexivity.
  - intros cfg H. apply getConfig_inr in H as (-> & -> & _). split; reflexivity.
  - unfold getConfig.
    destruct (getPipelineConfig env) as [pt [pc|]], (getReposConfig env) as [rt [rc|]];
      simpl; split; try (intros [H|H]; discriminate H); try discriminate; auto.
Qed.

Lemma getConfig_both_or_throw_witness :
  getConfig Samples.env_empty
    = inl "Pipeline and/or repository could not be recognized."
  ∧ ∃ cfg, getConfig Samples.env_azdo = inr cfg.
Proof.
  split.
  - apply (proj2 (proj2 (getConfig_both_or_throw Samples.env_empty))).
    left. reflexivity.
  - apply (proj1 (getConfig_both_or_throw Samples.env_azdo)).
    split; eexists; reflexivity.
Defined.

(** ** Validity predicates *)

Lemma getConfig_only_provider (env : Env) (p : Provider) :
  only_provider env p = true →
  ∃ cfg, getConfig env = inr cfg
         ∧ pipelineType cfg = pipeline_tag p ∧ repoType cfg = repo_tag p
         ∧ pipeline_shape (pipelineConfig cfg) = p
         ∧ repo_shape (repoConfig cfg) = p.
Proof.
  unfold only_provider, satisfied, is_set, getConfig, getPipelineConfig, getReposConfig.
  intros H. destruct p; simpl in H; split_env; eexists; repeat split; reflexivity.
Qed.

(** Once [getConfig] has returned, the predicates are decided by the
    pipeline tag and by the shape of the two sub-configurations: [org] and
    [project] exist on the Azure DevOps pipeline shape only, [manifestRepo] on
    the Azure DevOps and on the GitHub repository shape, [sourceRepo] and
    [hldRepo] on the GitHub one, the three project ids on the GitLab one. *)
Lemma predicates_inr (env : Env) (cfg : IConfig) :
  getConfig env = inr cfg →
  isAzdo env =
    inr (is_provider (pipeline_shape (pipelineConfig cfg)) Azdo
         && match pipelineType cfg with PipelineType.AZDO => true | _ => false end
         && has_manifestRepo (repoConfig cfg))
  ∧ isGithubActions env =
      inr (match pipelineType cfg with PipelineType.GITHUB_ACTIONS => true | _ => false end
           && is_provider (repo_shape (repoConfig cfg)) Github)
  ∧ isGitlab env =
      inr (match pipelineType cfg with PipelineType.GITLAB => true | _ => false end
           && is_provider (repo_shape (repoConfig cfg)) Gitlab).
Proof.
  intros H. unfold isAzdo, isGithubActions, isGitlab. rewrite H.
  destruct cfg as [pc rc k a t p rt pt]. simpl.
  destruct pt, pc as [[]|[]|[]], rc as [[]|[]|[]]; repeat split; reflexivity.
Qed.

(** C2: when exactly one provider's required variables are set, for its
    pipeline and for its repositories, and no group of another provider is
    satisfied, [getConfig] returns a configuration whose [pipelineType] and
    [repoType] are that provider's and whose two sub-configurations have that
    provider's shape; the provider's own predicate among [isAzdo],
    [isGithubActions], [isGitlab] returns true and the two others false. *)
Theorem only_provider_config (env : Env) (p : Provider) :
  only_provider env p = true →
  ∃ cfg, getConfig env = inr cfg
         ∧ pipelineType cfg = pipeline_tag p ∧ repoType cfg = repo_tag p
         ∧ pipeline_shape (pipelineConfig cfg) = p
         ∧ repo_shape (repoConfig cfg) = p
         ∧ isAzdo env = inr (is_provider p Azdo)
         ∧ isGithubActions env = inr (is_provider p Github)
         ∧ isGitlab env = inr (is_provider p Gitlab).
Proof.
  intros H. destruct (getConfig_only_provider env p H) as (cfg & Hc & Hpt & Hrt & Hps & Hrs).
  exists cfg. repeat (split; [assumption|]).
  destruct (predicates_inr env cfg Hc) as (-> & -> & ->).
  rewrite Hpt. destruct (repoConfig cfg), (pipelineConfig cfg), p;
    simpl in *; try discriminate; repeat split; reflexivity.
Qed.

Lemma only_provider_config_witness :
  (∃ cfg, getConfig Samples.env_azdo = inr cfg
          ∧ pipelineType cfg = PipelineType.AZDO ∧ repoType cfg = RepositoryType.AZDO)
  ∧ isAzdo Samples.env_azdo = inr true
  ∧ isGithubActions Samples.env_github = inr true
  ∧ isGitlab Samples.env_gitlab = inr true
  ∧ isAzdo Samples.env_gitlab = inr false.
Proof.
  destruct (only_provider_config Samples.env_azdo Azdo eq_refl)
    as (c1 & H1 & Hp1 & Hr1 & _ & _ & Ha1 & _).
  destruct (only_provider_config Samples.env_github Github eq_refl)
    as (c2 & _ & _ & _ & _ & _ & _ & Hg2 & _).
  destruct (only_provider_config Samples.env_gitlab Gitlab eq_refl)
    as (c3 & _ & _ & _ & _ & _ & Ha3 & _ & Hl3).
  split; [exists c1; auto|]. auto.
Defined.

Lemma nonempty_true (s : string) : nonempty s = true ↔ s ≠ "".
Proof. unfold nonempty. destruct (String.eqb_spec s ""); simpl; intuition congruence. Qed.

Lemma storage_check (b : bool) (a k t p : string) :
  (b && nonempty a && nonempty k && nonempty t && nonempty p = true
   ↔ b = true ∧ a ≠ "" ∧ k ≠ "" ∧ t ≠ "" ∧ p ≠ "")
  ∧ (a = "" ∨ k = "" ∨ t = "" ∨ p = ""
     → b && nonempty a && nonempty k && nonempty t && nonempty p = false).
Proof.
  rewrite <- !nonempty_true. split.
  - rewrite !andb_true_iff. tauto.
  - intros [-> | [-> | [-> | ->]]]; simpl; rewrite ?andb_false_r; reflexivity.
Qed.

(** [isConfigValid] on a resolved configuration, in closed form. *)
Lemma isConfigValid_inr (env : Env) (cfg : IConfig) (a g l : bool) :
  getConfig env = inr cfg →
  isAzdo env = inr a → isGithubActions env = inr g → isGitlab env = inr l →
  isConfigValid env =
    inr (exactly_one a g l
         && nonempty (storageAccountName cfg) && nonempty (storageAccessKey cfg)
         && nonempty (storageTableName cfg) && nonempty (storagePartitionKey cfg)).
Proof.
  intros H Ha Hg Hl. unfold isConfigValid. rewrite H, Ha, Hg, Hl.
  destruct (predicates_inr env cfg H) as (Ea & Eg & El).
  rewrite Ea in Ha. rewrite Eg in Hg. rewrite El in Hl. simplify_eq.
  destruct cfg as [pc rc k a t p rt pt].
  destruct pt, pc, rc; reflexivity.
Qed.

(** C5: in every environment in which [getConfig] succeeds, the three
    predicates and [isConfigValid] return, and [isConfigValid] returns true
    exactly when exactly one of [isAzdo], [isGithubActions], [isGitlab]
    returns true and the four storage fields (account name, access key, table
    name, partition key) are all non-empty; in particular it returns false as
    soon as one of the four is the empty string. *)
Theorem isConfigValid_spec (env : Env) (cfg : IConfig) :
  getConfig env = inr cfg →
  ∃ a g l v,
    isAzdo env = inr a ∧ isGithubActions env = inr g ∧ isGitlab env = inr l
    ∧ isConfigValid env = inr v
    ∧ (v = true ↔
         exactly_one a g l = true
         ∧ storageAccountName cfg ≠ "" ∧ storageAccessKey cfg ≠ ""
         ∧ storageTableName cfg ≠ "" ∧ storagePartitionKey cfg ≠ "")
    ∧ (storageAccountName cfg = "" ∨ storageAccessKey cfg = ""
       ∨ storageTableName cfg = "" ∨ storagePartitionKey cfg = "" → v = false).
Proof.
  intros H. destruct (predicates_inr env cfg H) as (Ha & Hg & Hl).
  do 4 eexists. do 3 (split; [eassumption|]).
  split; [exact (isConfigValid_inr env cfg _ _ _ H Ha Hg Hl)|].
  apply storage_check.
Qed.

Lemma isConfigValid_spec_witness :
  isConfigValid Samples.env_azdo = inr true
  ∧ isConfigValid Samples.env_azdo_no_table = inr false.
Proof.
  split.
  - destruct (isConfigValid_spec Samples.env_azdo Samples.cfg_azdo)
      as (a & g & l & v & Ha & Hg & Hl & Hv & Hiff & _).
    { vm_compute. reflexivity. }
    rewrite Hv. f_equal. apply Hiff.
    vm_compute in Ha, Hg, Hl.
    injection Ha as <-. injection Hg as <-. injection Hl as <-.
    repeat split; discriminate.
  - destruct (isConfigValid_spec Samples.env_azdo_no_table Samples.cfg_azdo_no_table)
      as (a & g & l & v & _ & _ & _ & Hv & _ & Hempty).
    { vm_compute. reflexivity. }
    rewrite Hv. f_equal. apply Hempty.
    right. right. left. reflexivity.
Defined.

(** The predicate [isAzdo] does not look at [repoType]: an Azure DevOps
    pipeline with GitHub repositories passes it. *)
Lemma isAzdo_github_repos (env : Env) :
  is_set env AZDO_ORG = true → is_set env AZDO_PROJECT = true →
  is_set env AZDO_MANIFEST_REPO = false →
  satisfied env (repo_group Github) = true →
  ∃ cfg, getConfig env = inr cfg
         ∧ pipelineType cfg = PipelineType.AZDO
         ∧ repoType cfg = RepositoryType.GITHUB
         ∧ isAzdo env = inr true.
Proof.
  intros Ho Hp Hm Hg.
  apply is_set_true in Ho as [o Ho]. apply is_set_true in Hp as [p Hp].
  apply is_set_false in Hm.
  unfold satisfied in Hg. simpl in Hg. rewrite !andb_true_iff in Hg.
  destruct Hg as (Hgm & Hgh & Hgs & _).
  apply is_set_true in Hgm as [m Hgm]. apply is_set_true in Hgh as [h Hgh].
  apply is_set_true in Hgs as [s Hgs].
  assert (E : ∃ cfg, getConfig env = inr cfg
                     ∧ pipelineType cfg = PipelineType.AZDO
                     ∧ repoType cfg = RepositoryType.GITHUB
                     ∧ repo_shape (repoConfig cfg) = Github
                     ∧ pipeline_shape (pipelineConfig cfg) = Azdo).
  { unfold getConfig, getPipelineConfig, getReposConfig.
    rewrite Ho, Hp, Hm, Hgm, Hgh, Hgs. eexists. repeat split; reflexivity. }
  destruct E as (cfg & E & Hpt & Hrt & Hrs & Hps).
  exists cfg. repeat (split; [assumption|]).
  destruct (predicates_inr env cfg E) as (-> & _ & _).
  rewrite Hpt, Hps. destruct (repoConfig cfg); try discriminate. reflexivity.
Qed.

(** C10: there is an environment, with the Azure DevOps organization and
    project set, the Azure DevOps manifest repository unset and the three
    GitHub repositories set, in which [getConfig] succeeds with [pipelineType]
    AZDO and [repoType] GITHUB and [isAzdo] returns true: the [manifestRepo]
    property it reads through the cast exists on the GitHub repository
    configuration, so the predicate does not tell that pipeline and
    repositories belong to one provider. *)
Theorem isAzdo_mixed_providers :
  ∃ env cfg,
    is_set env AZDO_ORG = true ∧ is_set env AZDO_PROJECT = true
    ∧ is_set env AZDO_MANIFEST_REPO = false
    ∧ satisfied env (repo_group Github) = true
    ∧ getConfig env = inr cfg
    ∧ pipelineType cfg = PipelineType.AZDO
    ∧ repoType cfg = RepositoryType.GITHUB
    ∧ repo_shape (repoConfig cfg) = Github
    ∧ defined (get_prop (repo_object (repoConfig cfg)) "manifestRepo") = true
    ∧ isAzdo env = inr true.
Proof.
  exists Samples.env_mixed, Samples.cfg_mixed.
  repeat split; vm_compute; reflexivity.
Qed.

(** ** Cache refresh interval *)

Lemma digit_char_value (d : nat) :
  (d < 10)%nat →
  digit_value (digit_char d) = Some (Z.of_nat d)
  ∧ is_white_space (digit_char d) = false
  ∧ Ascii.eqb (digit_char d) "-" = false
  ∧ Ascii.eqb (digit_char d) "+" = false.
Proof.
  intros H. do 10 (destruct d as [|d]; [repeat split; reflexivity|]). lia.
Qed.

Lemma digit_char_code (d : nat) :
  (d < 10)%nat → (nat_of_ascii (digit_char d) < 194)%nat.
Proof.
  intros H. do 10 (destruct d as [|d]; [apply Nat.ltb_lt; reflexivity|]). lia.
Qed.

(** A byte below C2 that is not white space starts no white space. *)
Lemma trim_start_ascii (c : ascii) (r : string) :
  is_white_space c = false → (nat_of_ascii c < 194)%nat →
  trim_start (String c r) = String c r.
Proof.
  intros Hw Hn. cbn [trim_start]. rewrite Hw.
  assert (E : ∀ k, (194 ≤ k)%nat → (nat_of_ascii c =? k)%nat = false).
  { intros k Hk. apply Nat.eqb_neq. lia. }
  destruct r as [|c2 r2]; [reflexivity|].
  unfold white_space_2. rewrite (E 194%nat) by lia. cbn [andb].
  destruct r2 as [|c3 r3]; [reflexivity|].
  unfold white_space_3. cbv zeta.
  rewrite (E 225%nat), (E 226%nat), (E 227%nat), (E 239%nat) by lia.
  reflexivity.
Qed.







Lemma parseInt_cons (c : ascii) (r : string) :
  trim_start (String c r) = String c r →
  parseInt (String c r) =
    match parse_digits (if Ascii.eqb c "-" then r
                        else if Ascii.eqb c "+" then r else String c r) None with
    | Some m => round_to_double ((if Ascii.eqb c "-" then -1 else 1) * m)
    | None => NaN
    end.
Proof.
  intros H. unfold parseInt. rewrite H.
  destruct (Ascii.eqb c "-"); [reflexivity|].
  destruct (Ascii.eqb c "+"); reflexivity.
Qed.

Lemma trim_start_sign (c : ascii) (r : string) :
  c = "+"%char ∨ c = "-"%char → trim_start (String c r) = String c r.
Proof.
  intros [-> | ->]; apply trim_start_ascii;
    (reflexivity || (apply Nat.ltb_lt; reflexivity)).
Qed.



(** Rounding leaves a safe integer as it is. *)
Lemma round_to_double_safe (z : Z) : safe_integer z → round_to_double z = Num z.
Proof.
  unfold safe_integer. change (2 ^ 53) with 9007199254740992. intros H.
  destruct (Z.eq_dec (Z.abs z) 9007199254740992) as [E|E].
  - assert (Hz : z = 9007199254740992 ∨ z = -9007199254740992) by lia.
    destruct Hz as [-> | ->]; vm_compute; reflexivity.
  - assert (Hlog : Z.log2 (Z.abs z) + 1 - 53 <= 0).
    { destruct (Z.eq_dec (Z.abs z) 0) as [E0|E0]; [rewrite E0; vm_compute; discriminate|].
      assert (Z.log2 (Z.abs z) < 53); [|lia].
      apply Z.log2_lt_pow2; [lia|]. change (2 ^ 53) with 9007199254740992. lia. }
    unfold round_to_double. rewrite (Z.max_l 0 _ Hlog).
    change (2 ^ 0) with 1. rewrite Z.div_1_r, Z.mod_1_r, Z.mul_1_r.
    change (Z.ltb (2 * 0) 1) with true. cbv iota.
    assert (Hlt : Z.leb (2 ^ 1024) (Z.abs z) = false).
    { apply Z.leb_gt. apply Z.lt_trans with (2 ^ 53).
      - change (2 ^ 53) with 9007199254740992. lia.
      - apply Z.pow_lt_mono_r; lia. }
    rewrite Hlt. f_equal. destruct z; reflexivity.
Qed.



(** [cacheRefreshInterval] in terms of [parseInt]. *)
Lemma cacheRefreshInterval_eq (env : Env) :
  cacheRefreshInterval env =
    match env_set env CACHE_REFRESH_INTERVAL_IN_SEC with
    | None => Num 30000
    | Some s =>
        match parseInt s with
        | NaN => Num 30000
        | v => number_mul v (Num 1000)
        end
    end.
Proof.
  unfold cacheRefreshInterval.
  destruct (env_set env CACHE_REFRESH_INTERVAL_IN_SEC) as [s|];
    [|vm_compute; reflexivity].
  destruct (parseInt s); reflexivity.
Qed.



Lemma safe_integer_factor (n : Z) : safe_integer (n * 1000) → safe_integer n.
Proof. unfold safe_integer. lia. Qed.




(** White space outside ASCII is skipped too, and a very long run of digits
    overflows to [Infinity], which times 1000 is still [Infinity]. *)
Example cacheRefreshInterval_unicode_and_overflow :
  cacheRefreshInterval (Samples.env_interval Samples.nbsp_42) = Num 42000
  ∧ cacheRefreshInterval (Samples.env_interval (Samples.power_of_ten 400))
    = Infinity false.
Proof. split; vm_compute; reflexivity. Qed.

(** ** Author lookup *)

Section AuthorProperties.
Context {Repo : Type}.
Variable getRepositoryFromURL : string → option Repo.

Import Author.

#[local] Abbreviation select := (Author.select getRepositoryFromURL).
#[local] Abbreviation get := (Author.get getRepositoryFromURL).
#[local] Abbreviation sourceRepo_branch :=
  (Author.sourceRepo_branch getRepositoryFromURL).

(** [IConfig] has no property [sourceRepoAccessToken] and none named
    [pipelineAccessToken], so both reads yield [undefined]. *)
Lemma access_token_undefined (cfg : IConfig) : access_token cfg = VUndefined.
Proof. reflexivity. Qed.

(** [get] in terms of the selection. *)
Lemma get_inr (env : Env) (cfg : IConfig) (d : IDeploymentData Repo) :
  getConfig env = inr cfg →
  get env d =
    match commit (select d), repo (select d) with
    | Some c, Some r =>
        if present (Some c) then inr (FetchAuthor r c (access_token cfg))
        else inr (Absent "Repository could not be recognized")
    | _, _ => inr (Absent "Repository could not be recognized")
    end.
Proof. intros H. unfold Author.get. rewrite H. reflexivity. Qed.

Lemma get_fetch (env : Env) (d : IDeploymentData Repo) r c tok :
  get env d = inr (FetchAuthor r c tok) →
  repo (select d) = Some r ∧ commit (select d) = Some c ∧ present (Some c) = true
  ∧ ∃ cfg, getConfig env = inr cfg ∧ tok = access_token cfg.
Proof.
  unfold Author.get. destruct (getConfig env) as [e|cfg]; [discriminate|].
  cbn [mbind result_bind].
  destruct (commit (select d)) as [c'|]; [|discriminate].
  destruct (repo (select d)) as [r'|]; [|discriminate].
  destruct (present (Some c')) eqn:E; [|discriminate].
  intros H. simplify_eq. eauto 10.
Qed.

(** Whenever [get] calls [fetchAuthor], the access token is [undefined]. *)
Lemma get_fetch_token (env : Env) (d : IDeploymentData Repo) r c tok :
  get env d = inr (FetchAuthor r c tok) → tok = VUndefined.
Proof. intros H. apply get_fetch in H as (_ & _ & _ & cfg & _ & ->). reflexivity. Qed.

(** C8, amended: when neither build carries a repository, [sourceRepo] is
    present, and the resolver yields a reference for the [sourceRepo] URL (or
    there is no [hldRepo]), [get] goes on with the repository the resolver
    derives from that URL and with the commit
    [srcToDockerBuild.sourceVersion], not the value chosen before with the
    [hldToManifestBuild] fallback: with a reference [r] and a commit [c] it
    calls [fetchAuthor] with [r] and [c], whatever
    [hldToManifestBuild.sourceVersion] and [hldRepo] are. *)
Theorem sourceRepo_commit (env : Env) (d : IDeploymentData Repo) (url : string) :
  repository_of (srcToDockerBuild d) = None →
  repository_of (hldToManifestBuild d) = None →
  sourceRepo d = Some url → present (Some url) = true →
  is_Some (getRepositoryFromURL url) ∨ present (hldRepo d) = false →
  sourceRepo_branch d (from_builds d) =
    {| repo := getRepositoryFromURL url;
       commit := version_of (srcToDockerBuild d) |}
  ∧ select d = {| repo := getRepositoryFromURL url;
                  commit := version_of (srcToDockerBuild d) |}
  ∧ (∀ r cfg c,
       getRepositoryFromURL url = Some r → getConfig env = inr cfg →
       version_of (srcToDockerBuild d) = Some c → present (Some c) = true →
       get env d = inr (FetchAuthor r c (access_token cfg))).
Proof.
  intros Hs Hh Hurl Hp Hguard.
  assert (E : sourceRepo_branch d (from_builds d) =
                {| repo := getRepositoryFromURL url;
                   commit := version_of (srcToDockerBuild d) |}).
  { unfold Author.sourceRepo_branch, from_builds. cbn [repo].
    rewrite Hs, Hh, Hurl. cbn [repo_or]. rewrite Hp. reflexivity. }
  assert (S : select d = {| repo := getRepositoryFromURL url;
                            commit := version_of (srcToDockerBuild d) |}).
  { unfold Author.select, Author.hldRepo_branch. rewrite E. cbn [repo].
    destruct Hguard as [[r Hr]|Hh'].
    - rewrite Hr. reflexivity.
    - destruct (getRepositoryFromURL url); [reflexivity|].
      destruct (hldRepo d) as [h|]; [|reflexivity].
      rewrite Hh'. reflexivity. }
  split; [exact E|]. split; [exact S|].
  intros r cfg c Hr Hc Hv Hpc.
  rewrite (get_inr env cfg d Hc), S.
  cbn [commit repo]. rewrite Hr, Hv, Hpc. reflexivity.
Qed.

(** C9: when [sourceRepo] is present and resolves to a reference,
    [srcToDockerBuild] is absent altogether and [hldToManifestBuild] carries
    no repository, the commit is overridden to [undefined]; [get] never
    calls [fetchAuthor], and once [getConfig] has returned it logs
    "Repository could not be recognized" and returns [undefined], also when
    [hldToManifestBuild.sourceVersion] is present. *)
Theorem sourceRepo_without_build (env : Env) (d : IDeploymentData Repo)
    (url : string) (r : Repo) :
  srcToDockerBuild d = None →
  repository_of (hldToManifestBuild d) = None →
  sourceRepo d = Some url → present (Some url) = true →
  getRepositoryFromURL url = Some r →
  select d = {| repo := Some r; commit := None |}
  ∧ (∀ r' c tok, get env d ≠ inr (FetchAuthor r' c tok))
  ∧ (∀ cfg, getConfig env = inr cfg →
       get env d = inr (Absent "Repository could not be recognized")).
Proof.
  intros Hs Hh Hurl Hp Hr.
  assert (S : select d = {| repo := Some r; commit := None |}).
  { unfold Author.select, Author.sourceRepo_branch, from_builds. cbn [repo].
    rewrite Hs, Hh, Hurl. cbn [repository_of mbind option_bind repo_or].
    rewrite Hp, Hr. reflexivity. }
  split; [exact S|]. split.
  - intros r' c tok H. apply get_fetch in H as (_ & H & _).
    rewrite S in H. discriminate H.
  - intros cfg Hc. rewrite (get_inr env cfg d Hc), S. reflexivity.
Qed.

End AuthorProperties.

Lemma sourceRepo_commit_witness :
  Author.get Samples.resolver Samples.env_azdo Samples.dep_sourceRepo
  = inr (Author.FetchAuthor "https://github.com/org/source" "c2"
           (Author.access_token Samples.cfg_azdo)).
Proof.
  destruct (sourceRepo_commit Samples.resolver Samples.env_azdo Samples.dep_sourceRepo
              "https://github.com/org/source" eq_refl eq_refl eq_refl eq_refl)
    as (_ & _ & H).
  { left. eexists. reflexivity. }
  apply H; [reflexivity|vm_compute; reflexivity|reflexivity|reflexivity].
Defined.

(** C8 as first stated fails when the resolver does not recognize the
    [sourceRepo] URL and [hldRepo] is present: neither build carries a
    repository, [sourceRepo] is present and [srcToDockerBuild.sourceVersion]
    is "c2", yet the second [if] runs, and [get] calls [fetchAuthor] with the
    repository derived from [hldRepo] and the commit "h1" of
    [hldToManifestBuild]. *)
Lemma sourceRepo_commit_counterexample :
  Author.repository_of (Author.srcToDockerBuild Samples.dep_unknown_source) = None
  ∧ Author.repository_of (Author.hldToManifestBuild Samples.dep_unknown_source) = None
  ∧ Author.present (Author.sourceRepo Samples.dep_unknown_source) = true
  ∧ Author.version_of (Author.srcToDockerBuild Samples.dep_unknown_source) = Some "c2"
  ∧ Author.select Samples.resolver Samples.dep_unknown_source
    = {| Author.repo := Some "https://github.com/org/hld";
         Author.commit := Some "h1" |}
  ∧ Author.get Samples.resolver Samples.env_azdo Samples.dep_unknown_source
    = inr (Author.FetchAuthor "https://github.com/org/hld" "h1" VUndefined)
  ∧ Author.commit (Author.select Samples.resolver Samples.dep_unknown_source)
    ≠ Author.version_of (Author.srcToDockerBuild Samples.dep_unknown_source).
Proof.
  repeat split; try (vm_compute; reflexivity). vm_compute. discriminate.
Qed.

Lemma sourceRepo_without_build_witness :
  Author.get Samples.resolver Samples.env_azdo Samples.dep_no_src_build
  = inr (Author.Absent "Repository could not be recognized").
Proof.
  destruct (sourceRepo_without_build Samples.resolver Samples.env_azdo
              Samples.dep_no_src_build "https://github.com/org/source"
              "https://github.com/org/source" eq_refl eq_refl eq_refl eq_refl eq_refl)
    as (_ & _ & H).
  apply (H Samples.cfg_azdo). vm_compute. reflexivity.
Defined.

(** C1 asks that [fetchAuthor] receive the configuration's source
    repository access token, or else its pipeline access token.  In an Azure
    DevOps environment whose access token is set, the configuration holds
    that token both as [repoConfig.accessToken] and as
    [pipelineConfig.accessToken], yet [get] passes [undefined]: it reads
    [config.sourceRepoAccessToken] and [config.pipelineAccessToken], two
    properties the configuration does not have. *)
Theorem get_passes_undefined_token :
  getConfig Samples.env_azdo = inr Samples.cfg_azdo
  ∧ prop (get_prop (config_object Samples.cfg_azdo) "repoConfig") "accessToken"
    = VString "azdo-token"
  ∧ prop (get_prop (config_object Samples.cfg_azdo) "pipelineConfig") "accessToken"
    = VString "azdo-token"
  ∧ Author.get Samples.resolver Samples.env_azdo Samples.dep_build
    = inr (Author.FetchAuthor "R" "c1" VUndefined).
Proof. repeat split; vm_compute; reflexivity. Qed.

(** The two URL branches are two separate [if]s: when the resolver yields
    nothing for [sourceRepo], the [hldRepo] branch runs next and takes the
    commit from [hldToManifestBuild]. *)
Example hldRepo_after_unresolved_sourceRepo :
  Author.get Samples.resolver Samples.env_azdo Samples.dep_unknown_source
  = inr (Author.FetchAuthor "https://github.com/org/hld" "h1" VUndefined).
Proof. vm_compute. reflexivity. Qed.

(** A variable defined as the empty string is falsy, hence treated like an
    unset one by both selections. *)
Example empty_string_is_not_set :
  is_set Samples.env_empty_org AZDO_ORG = false
  ∧ getPipelineConfig Samples.env_empty_org = (PipelineType.AZDO, None)
  ∧ getReposConfig Samples.env_empty_org = (RepositoryType.AZDO, None).
Proof. repeat split; vm_compute; reflexivity. Qed.

(** * Further properties of config.ts *)

Lemma env_set_nonempty (env : Env) (k s : string) :
  env_set env k = Some s → nonempty s = true ∧ getenv env k = Some s.
Proof.
  intros H. apply env_set_Some in H as [H1 H2]. split; [|exact H1].
  apply nonempty_true. exact H2.
Qed.

(** Turn every [env_set env k = Some s] at hand into what it says of [s]. *)
Ltac use_env_set :=
  repeat match goal with
    | H : env_set _ _ = Some _ |- _ => apply env_set_nonempty in H as [? ?]
    end.

Lemma agree_on_env_set (vars : list string) (env1 env2 : Env) (k : string) :
  agree_on vars env1 env2 → k ∈ vars → env_set env1 k = env_set env2 k.
Proof.
  intros H Hk. unfold env_set.
  rewrite (proj1 (Forall_forall _ _) H k Hk). reflexivity.
Qed.

(** X1: [getPipelineConfig] reads the organization, the project, the Azure
    DevOps access token, the GitHub token and the GitLab token, and nothing
    else: two environments that agree on these five variables give the same
    pipeline type and configuration, whatever the repository, storage and
    other variables are. *)
Theorem getPipelineConfig_reads (env1 env2 : Env) :
  agree_on pipeline_vars env1 env2 →
  getPipelineConfig env1 = getPipelineConfig env2.
Proof.
  intros H. unfold getPipelineConfig.
  rewrite !(agree_on_env_set pipeline_vars env1 env2 _ H)
    by (unfold pipeline_vars; set_solver).
  rewrite (proj1 (Forall_forall _ _) H AZDO_ACCESS_TOKEN)
    by (unfold pipeline_vars; set_solver).
  reflexivity.
Qed.

Lemma getPipelineConfig_reads_witness :
  getPipelineConfig Samples.env_azdo = getPipelineConfig Samples.env_azdo_no_table.
Proof.
  apply getPipelineConfig_reads. unfold agree_on, pipeline_vars.
  repeat (constructor; [vm_compute; reflexivity|]). constructor.
Defined.

(** X2: [getReposConfig] reads the Azure DevOps manifest repository and
    access token, the three GitHub repositories and the GitHub token, the
    three GitLab project ids and the GitLab token, and nothing else: two
    environments that agree on these ten variables give the same repository
    type and configuration; the organization and the project play no part. *)
Theorem getReposConfig_reads (env1 env2 : Env) :
  agree_on repo_vars env1 env2 →
  getReposConfig env1 = getReposConfig env2.
Proof.
  intros H. unfold getReposConfig.
  rewrite !(agree_on_env_set repo_vars env1 env2 _ H)
    by (unfold repo_vars; set_solver).
  rewrite !(proj1 (Forall_forall _ _) H AZDO_ACCESS_TOKEN)
    by (unfold repo_vars; set_solver).
  rewrite !(proj1 (Forall_forall _ _) H GITHUB_TOKEN)
    by (unfold repo_vars; set_solver).
  reflexivity.
Qed.

Lemma getReposConfig_reads_witness :
  getReposConfig Samples.env_mixed = getReposConfig Samples.env_github_repos_only.
Proof.
  apply getReposConfig_reads. unfold agree_on, repo_vars.
  repeat (constructor; [vm_compute; reflexivity|]). constructor.
Defined.

(** ** What a resolved configuration holds *)

Lemma getPipelineConfig_Some (env : Env) (pt : PipelineType.t) (pc : PipelineConfig) :
  getPipelineConfig env = (pt, Some pc) →
  pt = pipeline_tag (pipeline_shape pc)
  ∧ pipeline_choice env = Some (pipeline_shape pc)
  ∧ forallb nonempty_string (pipeline_required pc) = true
  ∧ pipeline_token pc = of_option (getenv env (token_var (pipeline_shape pc))).
Proof.
  unfold getPipelineConfig, pipeline_choice, satisfied, is_set. simpl forallb.
  intros H. split_env; simplify_eq; use_env_set; simpl;
    unfold pipeline_token; simpl;
    repeat match goal with H : nonempty _ = true |- _ => rewrite H end;
    repeat match goal with H : getenv _ _ = Some _ |- _ => rewrite H end;
    repeat split; reflexivity.
Qed.

Lemma getPipelineConfig_None (env : Env) (pt : PipelineType.t) :
  getPipelineConfig env = (pt, None) → pipeline_choice env = None.
Proof.
  unfold getPipelineConfig, pipeline_choice, satisfied, is_set. simpl forallb.
  intros H. split_env; simplify_eq; reflexivity.
Qed.

Lemma getReposConfig_Some (env : Env) (rt : RepositoryType.t) (rc : RepoConfig) :
  getReposConfig env = (rt, Some rc) →
  rt = repo_tag (repo_shape rc)
  ∧ repo_choice env = Some (repo_shape rc)
  ∧ forallb nonempty_string (repo_required rc) = true
  ∧ repo_token rc = of_option (getenv env (token_var (repo_shape rc))).
Proof.
  unfold getReposConfig, repo_choice, satisfied, is_set. simpl forallb.
  intros H. split_env; simplify_eq; use_env_set; simpl;
    unfold repo_token; simpl;
    repeat match goal with H : nonempty _ = true |- _ => rewrite H end;
    repeat match goal with H : getenv _ _ = Some _ |- _ => rewrite H end;
    repeat split; reflexivity.
Qed.

Lemma getReposConfig_None (env : Env) (rt : RepositoryType.t) :
  getReposConfig env = (rt, None) → repo_choice env = None.
Proof.
  unfold getReposConfig, repo_choice, satisfied, is_set. simpl forallb.
  intros H. split_env; simplify_eq; reflexivity.
Qed.

(** X3: in every configuration [getConfig] returns, each type tag names the
    provider whose shape the sub-configuration beside it has: [pipelineType]
    agrees with [pipelineConfig] and [repoType] with [repoConfig] (the two
    sides may still name different providers). *)
Theorem getConfig_tags_match_shapes (env : Env) (cfg : IConfig) :
  getConfig env = inr cfg →
  pipelineType cfg = pipeline_tag (pipeline_shape (pipelineConfig cfg))
  ∧ repoType cfg = repo_tag (repo_shape (repoConfig cfg)).
Proof.
  intros H. apply getConfig_inr in H as (Hp & Hr & _).
  apply getPipelineConfig_Some in Hp as (Hp & _).
  apply getReposConfig_Some in Hr as (Hr & _). auto.
Qed.

Lemma getConfig_tags_match_shapes_witness :
  pipelineType Samples.cfg_mixed = PipelineType.AZDO
  ∧ repoType Samples.cfg_mixed = RepositoryType.GITHUB.
Proof.
  apply (getConfig_tags_match_shapes Samples.env_mixed Samples.cfg_mixed).
  vm_compute. reflexivity.
Defined.

(** X4: the fields a selection tests are never empty in a configuration
    [getConfig] returns: [org] and [project] of an Azure DevOps pipeline, the
    token of a GitHub Actions or GitLab pipeline, [manifestRepo] of Azure
    DevOps repositories, the three repositories of GitHub, the three project
    ids and the token of GitLab are all non-empty strings. *)
Theorem getConfig_required_nonempty (env : Env) (cfg : IConfig) :
  getConfig env = inr cfg →
  forallb nonempty_string (pipeline_required (pipelineConfig cfg)) = true
  ∧ forallb nonempty_string (repo_required (repoConfig cfg)) = true.
Proof.
  intros H. apply getConfig_inr in H as (Hp & Hr & _).
  apply getPipelineConfig_Some in Hp as (_ & _ & Hp & _).
  apply getReposConfig_Some in Hr as (_ & _ & Hr & _). auto.
Qed.

Lemma getConfig_required_nonempty_witness :
  forallb nonempty_string (pipeline_required (pipelineConfig Samples.cfg_azdo)) = true
  ∧ forallb nonempty_string (repo_required (repoConfig Samples.cfg_azdo)) = true.
Proof.
  apply (getConfig_required_nonempty Samples.env_azdo Samples.cfg_azdo).
  vm_compute. reflexivity.
Defined.

(** X5: the [accessToken] of each sub-configuration is the value of its
    provider's token variable (the Azure DevOps access token, the GitHub
    token or the GitLab token), [undefined] when that variable is unset.
    Hence, when pipeline and repositories have the same provider's shape,
    both hold the same access token. *)
Theorem getConfig_tokens (env : Env) (cfg : IConfig) :
  getConfig env = inr cfg →
  pipeline_token (pipelineConfig cfg)
    = of_option (getenv env (token_var (pipeline_shape (pipelineConfig cfg))))
  ∧ repo_token (repoConfig cfg)
    = of_option (getenv env (token_var (repo_shape (repoConfig cfg))))
  ∧ (pipeline_shape (pipelineConfig cfg) = repo_shape (repoConfig cfg) →
     pipeline_token (pipelineConfig cfg) = repo_token (repoConfig cfg)).
Proof.
  intros H. apply getConfig_inr in H as (Hp & Hr & _).
  apply getPipelineConfig_Some in Hp as (_ & _ & _ & Hp).
  apply getReposConfig_Some in Hr as (_ & _ & _ & Hr).
  split; [exact Hp|]. split; [exact Hr|].
  intros E. rewrite Hp, Hr, E. reflexivity.
Qed.

Lemma getConfig_tokens_witness :
  pipeline_token (pipelineConfig Samples.cfg_azdo) = VString "azdo-token"
  ∧ pipeline_token (pipelineConfig Samples.cfg_azdo)
    = repo_token (repoConfig Samples.cfg_azdo).
Proof.
  destruct (getConfig_tokens Samples.env_azdo Samples.cfg_azdo) as (Hp & _ & He).
  { vm_compute. reflexivity. }
  split; [rewrite Hp; vm_compute; reflexivity|].
  apply He. reflexivity.
Defined.

(** ** The predicates in terms of the environment *)

Lemma gitlab_group_token (env : Env) :
  satisfied env (repo_group Gitlab) = true → is_set env GITLAB_TOKEN = true.
Proof.
  unfold satisfied. simpl. rewrite !andb_true_iff. tauto.
Qed.

(** Split on the six tests the two selections make. *)
Ltac split_tests env :=
  pose proof (gitlab_group_token env);
  destruct (satisfied env (pipeline_group Azdo)), (is_set env GITHUB_TOKEN),
    (is_set env GITLAB_TOKEN), (is_set env AZDO_MANIFEST_REPO),
    (satisfied env (repo_group Github)), (satisfied env (repo_group Gitlab));
  simpl in *; simplify_eq;
  try match goal with
      | H : true = true → false = true |- _ => discriminate (H eq_refl)
      end.

Lemma predicates_accepts (env : Env) (cfg : IConfig) :
  getConfig env = inr cfg →
  isAzdo env = inr (azdo_accepts env)
  ∧ isGithubActions env = inr (github_accepts env)
  ∧ isGitlab env = inr (gitlab_accepts env).
Proof.
  intros H. destruct (predicates_inr env cfg H) as (-> & -> & ->).
  apply getConfig_inr in H as (Hp & Hr & _).
  apply getPipelineConfig_Some in Hp as (-> & Hp & _).
  apply getReposConfig_Some in Hr as (_ & Hr & _).
  unfold azdo_accepts, github_accepts, gitlab_accepts.
  unfold pipeline_choice in Hp. unfold repo_choice in Hr.
  destruct (pipelineConfig cfg), (repoConfig cfg);
    split_tests env; repeat split; reflexivity.
Qed.

Lemma accepts_need_config (env : Env) (e : string) :
  getConfig env = inl e →
  azdo_accepts env = false ∧ github_accepts env = false ∧ gitlab_accepts env = false.
Proof.
  unfold getConfig.
  destruct (getPipelineConfig env) as [pt pc] eqn:Ep.
  destruct (getReposConfig env) as [rt rc] eqn:Er.
  unfold azdo_accepts, github_accepts, gitlab_accepts.
  destruct pc as [pc|].
  - destruct rc as [rc|]; [discriminate|]. intros _.
    apply getReposConfig_None in Er. unfold repo_choice in Er.
    split_tests env; repeat split; reflexivity.
  - intros _. apply getPipelineConfig_None in Ep. unfold pipeline_choice in Ep.
    split_tests env; repeat split; reflexivity.
Qed.

Lemma predicates_throw (env : Env) (e : string) :
  getConfig env = inl e →
  isAzdo env = inl e ∧ isGithubActions env = inl e ∧ isGitlab env = inl e
  ∧ isConfigValid env = inl e.
Proof.
  intros H. unfold isAzdo, isGithubActions, isGitlab, isConfigValid.
  rewrite H. repeat split; reflexivity.
Qed.

(** X6: the three predicates exclude one another: whenever they return, at
    most one of [isAzdo], [isGithubActions] and [isGitlab] is true. *)
Theorem predicates_exclusive (env : Env) (a g l : bool) :
  isAzdo env = inr a → isGithubActions env = inr g → isGitlab env = inr l →
  a && g = false ∧ a && l = false ∧ g && l = false.
Proof.
  intros Ha Hg Hl. destruct (getConfig env) as [e|cfg] eqn:E.
  - apply predicates_throw in E as (E & _). congruence.
  - destruct (predicates_inr env cfg E) as (Ea & Eg & El).
    rewrite Ea in Ha. rewrite Eg in Hg. rewrite El in Hl. simplify_eq.
    destruct (pipelineType cfg); simpl; rewrite ?andb_false_r; auto.
Qed.

Lemma predicates_exclusive_witness :
  true && false = false ∧ true && false = false ∧ false && false = false.
Proof.
  apply (predicates_exclusive Samples.env_mixed); vm_compute; reflexivity.
Defined.

(** X7: the three predicates and [isConfigValid] throw exactly when
    [getConfig] does, with the same error: an environment whose pipeline or
    repositories are not recognized is not reported as invalid, the call
    fails. *)
Theorem predicates_throw_iff (env : Env) (e : string) :
  (isAzdo env = inl e ↔ getConfig env = inl e)
  ∧ (isGithubActions env = inl e ↔ getConfig env = inl e)
  ∧ (isGitlab env = inl e ↔ getConfig env = inl e)
  ∧ (isConfigValid env = inl e ↔ getConfig env = inl e).
Proof.
  destruct (getConfig env) as [e'|cfg] eqn:E.
  - destruct (predicates_throw env e' E) as (-> & -> & -> & ->).
    repeat split; intros [= ->]; reflexivity.
  - destruct (predicates_inr env cfg E) as (Ha & Hg & Hl).
    rewrite (isConfigValid_inr env cfg _ _ _ E Ha Hg Hl), Ha, Hg, Hl.
    repeat split; discriminate.
Qed.

(** X8: [isAzdo] returns true exactly in the environments where the
    organization and the project are set and, besides, the Azure DevOps
    manifest repository is set or the three GitHub repositories are all
    set. *)
Theorem isAzdo_true_iff (env : Env) :
  isAzdo env = inr true ↔ azdo_accepts env = true.
Proof.
  destruct (getConfig env) as [e|cfg] eqn:E.
  - destruct (predicates_throw env e E) as (-> & _).
    destruct (accepts_need_config env e E) as (-> & _). split; discriminate.
  - destruct (predicates_accepts env cfg E) as (-> & _). split; congruence.
Qed.

(** X9: [isGithubActions] returns true exactly in the environments where
    the organization and the project are not both set, the GitHub token is
    set, the Azure DevOps manifest repository is not set, and the three GitHub
    repositories are all set. *)
Theorem isGithubActions_true_iff (env : Env) :
  isGithubActions env = inr true ↔ github_accepts env = true.
Proof.
  destruct (getConfig env) as [e|cfg] eqn:E.
  - destruct (predicates_throw env e E) as (_ & -> & _).
    destruct (accepts_need_config env e E) as (_ & -> & _). split; discriminate.
  - destruct (predicates_accepts env cfg E) as (_ & -> & _). split; congruence.
Qed.

(** X10: [isGitlab] returns true exactly in the environments where the
    organization and the project are not both set, the GitHub token is not
    set, the Azure DevOps manifest repository is not set, the three GitHub
    repositories are not all set, and the three GitLab project ids and the
    GitLab token are all set. *)
Theorem isGitlab_true_iff (env : Env) :
  isGitlab env = inr true ↔ gitlab_accepts env = true.
Proof.
  destruct (getConfig env) as [e|cfg] eqn:E.
  - destruct (predicates_throw env e E) as (_ & _ & -> & _).
    destruct (accepts_need_config env e E) as (_ & _ & ->). split; discriminate.
  - destruct (predicates_accepts env cfg E) as (_ & _ & ->). split; congruence.
Qed.

Lemma nonempty_env_or_empty (env : Env) (k : string) :
  nonempty (env_or_empty env k) = is_set env k.
Proof.
  unfold env_or_empty, is_set. destruct (env_set env k) as [s|] eqn:E; [|reflexivity].
  apply env_set_nonempty in E as [E _]. exact E.
Qed.

(** The three sets of accepted environments do not overlap. *)
Lemma accepts_exactly_one (env : Env) :
  exactly_one (azdo_accepts env) (github_accepts env) (gitlab_accepts env)
  = azdo_accepts env || github_accepts env || gitlab_accepts env.
Proof.
  unfold azdo_accepts, github_accepts, gitlab_accepts.
  destruct (satisfied env (pipeline_group Azdo)), (is_set env GITHUB_TOKEN),
    (is_set env AZDO_MANIFEST_REPO), (satisfied env (repo_group Github)),
    (satisfied env (repo_group Gitlab)); reflexivity.
Qed.

(** X11: [isConfigValid] returns true exactly in the environments that one
    of the three predicates accepts and in which the storage account name,
    access key, table name and partition key are all set; everywhere else it
    returns false or throws. *)
Theorem isConfigValid_true_iff (env : Env) :
  isConfigValid env = inr true
  ↔ (azdo_accepts env || github_accepts env || gitlab_accepts env)
    && satisfied env storage_vars = true.
Proof.
  destruct (getConfig env) as [e|cfg] eqn:E.
  - destruct (predicates_throw env e E) as (_ & _ & _ & ->).
    destruct (accepts_need_config env e E) as (-> & -> & ->). split; discriminate.
  - destruct (predicates_accepts env cfg E) as (Ha & Hg & Hl).
    rewrite (isConfigValid_inr env cfg _ _ _ E Ha Hg Hl), accepts_exactly_one.
    apply getConfig_inr in E as (_ & _ & -> & -> & -> & ->).
    rewrite !nonempty_env_or_empty. unfold satisfied, storage_vars. simpl forallb.
    destruct (azdo_accepts env || github_accepts env || gitlab_accepts env),
      (is_set env STORAGE_ACCOUNT_NAME), (is_set env STORAGE_ACCESS_KEY),
      (is_set env STORAGE_TABLE_NAME), (is_set env STORAGE_PARTITION_KEY);
      simpl; split; congruence.
Qed.

(** X12: GitLab repositories never lack a pipeline: the GitLab token they
    require also selects a pipeline (GitLab, unless Azure DevOps or GitHub
    Actions comes first), so whenever [getReposConfig] yields a GitLab
    configuration [getConfig] returns a configuration holding it. *)
Theorem gitlab_repos_have_pipeline (env : Env) (rt : RepositoryType.t)
    (rc : IGitlabRepoConfig.t) :
  getReposConfig env = (rt, Some (GitlabRepo rc)) →
  ∃ cfg, getConfig env = inr cfg ∧ repoConfig cfg = GitlabRepo rc.
Proof.
  intros H. destruct (getPipelineConfig env) as [pt [pc|]] eqn:Ep.
  - unfold getConfig. rewrite Ep, H. eexists. split; reflexivity.
  - exfalso. apply getPipelineConfig_None in Ep.
    apply getReposConfig_Some in H as (_ & H & _).
    unfold pipeline_choice in Ep. unfold repo_choice in H.
    split_tests env.
Qed.

Lemma gitlab_repos_have_pipeline_witness :
  ∃ cfg, getConfig Samples.env_gitlab = inr cfg
         ∧ repoConfig cfg = GitlabRepo Samples.cfg_gitlab_repo.
Proof.
  apply (gitlab_repos_have_pipeline Samples.env_gitlab RepositoryType.GITLAB).
  vm_compute. reflexivity.
Defined.

(** ** Lenient reading of the cache interval *)

Lemma trim_start_white (ws x : string) :
  all_white_space ws = true → trim_start (ws +:+ x) = trim_start x.
Proof.
  induction ws as [|c ws IH]; intros H; [reflexivity|].
  cbn [all_white_space] in H. apply andb_true_iff in H as [Hc Hws].
  change (String c ws +:+ x) with (String c (ws +:+ x)).
  cbn [trim_start]. rewrite Hc. exact (IH Hws).
Qed.

Lemma parse_digits_then (ds : list nat) (t : string) (acc : option Z) :
  Forall (λ d, (d < 10)%nat) ds → starts_with_digit t = false →
  parse_digits (digits_string ds +:+ t) acc =
    match ds with
    | [] => acc
    | _ => Some (digits_value ds (default 0 acc))
    end.
Proof.
  intros H Ht. revert acc. induction H as [|d ds Hd _ IH]; intros acc.
  - change (digits_string [] +:+ t) with t.
    destruct t as [|c t]; [reflexivity|]. cbn [parse_digits].
    cbn [starts_with_digit] in Ht. destruct (digit_value c); [discriminate|reflexivity].
  - change (digits_string (d :: ds) +:+ t)
      with (String (digit_char d) (digits_string ds +:+ t)).
    cbn [parse_digits]. destruct (digit_char_value d Hd) as (-> & _).
    rewrite IH. destruct ds; reflexivity.
Qed.

Lemma parseInt_lenient (ws s t : string) (n : Z) :
  all_white_space ws = true → integer_string s n → starts_with_digit t = false →
  parseInt (ws +:+ s +:+ t) = round_to_double n.
Proof.
  intros Hws (sg & ds & Hne & Hds & -> & ->) Ht.
  assert (E : parseInt (ws +:+ (sign_string sg +:+ digits_string ds) +:+ t)
              = parseInt ((sign_string sg +:+ digits_string ds) +:+ t)).
  { unfold parseInt. rewrite (trim_start_white _ _ Hws). reflexivity. }
  rewrite E. clear E.
  destruct ds as [|d ds]; [congruence|].
  pose proof (parse_digits_then (d :: ds) t None Hds Ht) as Hp.
  inversion Hds as [|? ? Hd _]; subst.
  destruct (digit_char_value d Hd) as (_ & Hw & Hm & Hplus).
  pose proof (digit_char_code d Hd) as Hc.
  destruct sg; cbn [sign_string sign_factor].
  - change (parseInt (String (digit_char d) (digits_string ds +:+ t))
            = round_to_double (1 * digits_value (d :: ds) 0)).
    rewrite (parseInt_cons _ _ (trim_start_ascii _ _ Hw Hc)), Hm, Hplus.
    change (String (digit_char d) (digits_string ds +:+ t))
      with (digits_string (d :: ds) +:+ t).
    rewrite Hp. reflexivity.
  - change (parseInt (String "+" (digits_string (d :: ds) +:+ t))
            = round_to_double (1 * digits_value (d :: ds) 0)).
    rewrite parseInt_cons by (apply trim_start_sign; auto).
    change (Ascii.eqb "+" "-") with false. change (Ascii.eqb "+" "+") with true.
    cbv iota. rewrite Hp. reflexivity.
  - change (parseInt (String "-" (digits_string (d :: ds) +:+ t))
            = round_to_double (-1 * digits_value (d :: ds) 0)).
    rewrite parseInt_cons by (apply trim_start_sign; auto).
    change (Ascii.eqb "-" "-") with true.
    cbv iota. rewrite Hp. reflexivity.
Qed.

(** X13: the interval is read leniently.  White space before the number is
    skipped and whatever follows its digits is ignored: when the variable
    holds white space, then a valid integer string for [n], then any text that
    does not begin with a digit (a unit, a fraction, ...),
    [cacheRefreshInterval] returns [n * 1000] (for [n * 1000] an integer a
    double holds exactly), not the default. *)
Theorem cacheRefreshInterval_lenient (env : Env) (ws s t : string) (n : Z) :
  getenv env CACHE_REFRESH_INTERVAL_IN_SEC = Some (ws +:+ s +:+ t) →
  all_white_space ws = true → integer_string s n → starts_with_digit t = false →
  safe_integer (n * 1000) →
  cacheRefreshInterval env = Num (n * 1000).
Proof.
  intros H Hws Hs Ht Hsafe.
  pose proof (parseInt_lenient ws s t n Hws Hs Ht) as Hp.
  rewrite (round_to_double_safe n (safe_integer_factor n Hsafe)) in Hp.
  rewrite cacheRefreshInterval_eq. unfold env_set. rewrite H.
  destruct (String.eqb_spec (ws +:+ s +:+ t) "") as [E|_].
  - rewrite E in Hp. discriminate Hp.
  - rewrite Hp. cbn [number_mul]. apply round_to_double_safe. exact Hsafe.
Qed.

Lemma cacheRefreshInterval_lenient_witness :
  cacheRefreshInterval (Samples.env_interval " 15s") = Num (15 * 1000)
  ∧ cacheRefreshInterval (Samples.env_interval "1.5") = Num (1 * 1000).
Proof.
  split.
  - apply (cacheRefreshInterval_lenient _ " " "15" "s").
    + reflexivity.
    + reflexivity.
    + exists NoSign, [1; 5]%nat. split; [discriminate|].
      split; [repeat constructor|]. split; reflexivity.
    + reflexivity.
    + vm_compute. discriminate.
  - apply (cacheRefreshInterval_lenient _ "" "1" ".5").
    + reflexivity.
    + reflexivity.
    + exists NoSign, [1]%nat. split; [discriminate|].
      split; [repeat constructor|]. split; reflexivity.
    + reflexivity.
    + vm_compute. discriminate.
Defined.

(** * Further properties of lib/author.ts *)

Lemma present_Some (s : string) : Author.present (Some s) = true ↔ s ≠ "".
Proof. exact (nonempty_true s). Qed.

Section AuthorSelection.
Context {Repo : Type}.
Variable getRepositoryFromURL : string → option Repo.

Import Author.

#[local] Abbreviation select := (Author.select getRepositoryFromURL).
#[local] Abbreviation get := (Author.get getRepositoryFromURL).

(** Every branch takes the commit from one of the two build results. *)
Lemma select_commit (d : IDeploymentData Repo) :
  commit (select d) = version_of (srcToDockerBuild d)
  ∨ commit (select d) = version_of (hldToManifestBuild d).
Proof.
  unfold Author.select, Author.hldRepo_branch, Author.sourceRepo_branch, from_builds,
    string_or.
  cbn [repo commit].
  destruct (repo_or (repository_of (srcToDockerBuild d))
                    (repository_of (hldToManifestBuild d))) as [r|];
    cbn [repo commit].
  - destruct (present (version_of (srcToDockerBuild d))); auto.
  - destruct (sourceRepo d) as [u|]; [destruct (present (Some u))|]; cbn [repo commit].
    + destruct (getRepositoryFromURL u); cbn [repo commit]; [auto|].
      destruct (hldRepo d) as [h|]; [destruct (present (Some h))|]; cbn [commit]; auto.
    + destruct (hldRepo d) as [h|]; [destruct (present (Some h))|]; cbn [commit]; auto.
      all: destruct (present (version_of (srcToDockerBuild d))); auto.
    + destruct (hldRepo d) as [h|]; [destruct (present (Some h))|]; cbn [commit]; auto.
      all: destruct (present (version_of (srcToDockerBuild d))); auto.
Qed.

(** The repository comes from a build result or, failing both, from the
    resolver applied to a non-empty URL of the deployment. *)
Lemma select_repo (d : IDeploymentData Repo) (r : Repo) :
  repo (select d) = Some r →
  repository_of (srcToDockerBuild d) = Some r
  ∨ repository_of (hldToManifestBuild d) = Some r
  ∨ (∃ u, sourceRepo d = Some u ∧ u ≠ "" ∧ getRepositoryFromURL u = Some r)
  ∨ (∃ u, hldRepo d = Some u ∧ u ≠ "" ∧ getRepositoryFromURL u = Some r).
Proof.
  unfold Author.select, Author.hldRepo_branch, Author.sourceRepo_branch, from_builds.
  cbn [repo commit].
  destruct (repository_of (srcToDockerBuild d)) as [r1|]; cbn [repo_or repo].
  { intros [= ->]. auto. }
  destruct (repository_of (hldToManifestBuild d)) as [r2|]; cbn [repo].
  { intros [= ->]. auto. }
  assert (Hh : ∀ s : selection Repo, repo s = None →
             repo match hldRepo d with
                  | Some url =>
                      if present (Some url)
                      then {| commit := version_of (hldToManifestBuild d);
                              repo := getRepositoryFromURL url |}
                      else s
                  | None => s
                  end = Some r →
             ∃ u, hldRepo d = Some u ∧ u ≠ "" ∧ getRepositoryFromURL u = Some r).
  { intros s Hs. destruct (hldRepo d) as [h|]; [|congruence].
    destruct (present (Some h)) eqn:Eh; [|congruence].
    cbn [repo]. intros Hr. exists h. apply present_Some in Eh. auto. }
  destruct (sourceRepo d) as [u|].
  - destruct (present (Some u)) eqn:Eu; cbn [repo].
    + destruct (getRepositoryFromURL u) as [r'|] eqn:Er; cbn [repo].
      * intros [= ->]. right. right. left. exists u. apply present_Some in Eu. auto.
      * intros H. right. right. right. eapply Hh; [|exact H]. reflexivity.
    + intros H. right. right. right. eapply Hh; [|exact H]. reflexivity.
  - cbn [repo]. intros H. right. right. right. eapply Hh; [|exact H]. reflexivity.
Qed.

(** X15: a repository on a build result takes precedence over both URLs:
    when [srcToDockerBuild] or [hldToManifestBuild] carries a repository, the
    resolver is never asked, so [get] does the same whatever the resolver is
    and whatever [sourceRepo] and [hldRepo] hold, and commit and repository
    are those chosen from the build results. *)
Theorem build_repository_first (env : Env) (d : IDeploymentData Repo) (r : Repo) :
  repo (from_builds d) = Some r →
  select d = from_builds d
  ∧ ∀ other : string → option Repo, Author.get other env d = get env d.
Proof.
  intros H.
  assert (S : ∀ f, Author.select f d = from_builds d).
  { intros f. unfold Author.select, Author.sourceRepo_branch. rewrite H.
    unfold Author.hldRepo_branch. rewrite H. reflexivity. }
  split; [apply S|]. intros other. unfold Author.get. rewrite !S. reflexivity.
Qed.

(** X16: commit and repository may come from different build results: when
    [srcToDockerBuild] carries a repository but no commit and
    [hldToManifestBuild] carries a commit, [get] calls [fetchAuthor] with the
    repository of the former and the commit of the latter, even when
    [hldToManifestBuild] has a repository of its own. *)
Theorem commit_and_repo_across_builds (env : Env) (cfg : IConfig)
    (d : IDeploymentData Repo) (r : Repo) (c : string) :
  getConfig env = inr cfg →
  repository_of (srcToDockerBuild d) = Some r →
  present (version_of (srcToDockerBuild d)) = false →
  version_of (hldToManifestBuild d) = Some c → present (Some c) = true →
  get env d = inr (FetchAuthor r c (access_token cfg)).
Proof.
  intros Hc Hr Hv Hh Hp.
  assert (F : from_builds d = {| commit := Some c; repo := Some r |}).
  { unfold from_builds, string_or. rewrite Hr, Hv, Hh. reflexivity. }
  assert (S : select d = from_builds d).
  { unfold Author.select, Author.sourceRepo_branch, Author.hldRepo_branch.
    rewrite F. reflexivity. }
  rewrite (get_inr getRepositoryFromURL env cfg d Hc), S, F. cbn [commit repo].
  rewrite Hp. reflexivity.
Qed.

(** X17: the [hldRepo] branch.  When neither build carries a repository and
    [sourceRepo] is absent, empty or not recognized by the resolver, while
    [hldRepo] is present, the repository is the resolver's answer for the
    [hldRepo] URL and the commit is [hldToManifestBuild.sourceVersion], also
    when [srcToDockerBuild.sourceVersion] is present; with a reference and a
    commit [get] calls [fetchAuthor] with them. *)
Theorem hldRepo_commit (env : Env) (d : IDeploymentData Repo) (url : string) :
  repository_of (srcToDockerBuild d) = None →
  repository_of (hldToManifestBuild d) = None →
  present (sourceRepo d) = false
  ∨ (∃ u, sourceRepo d = Some u ∧ getRepositoryFromURL u = None) →
  hldRepo d = Some url → present (Some url) = true →
  select d = {| repo := getRepositoryFromURL url;
                commit := version_of (hldToManifestBuild d) |}
  ∧ (∀ r cfg c,
       getRepositoryFromURL url = Some r → getConfig env = inr cfg →
       version_of (hldToManifestBuild d) = Some c → present (Some c) = true →
       get env d = inr (FetchAuthor r c (access_token cfg))).
Proof.
  intros Hs Hh Hsrc Hurl Hp.
  assert (S : select d = {| repo := getRepositoryFromURL url;
                            commit := version_of (hldToManifestBuild d) |}).
  { unfold Author.select, Author.sourceRepo_branch, from_builds. cbn [repo].
    rewrite Hs, Hh. cbn [repo_or].
    destruct Hsrc as [Hsrc|(u & Hu & Hr)].
    - destruct (sourceRepo d) as [u|]; [rewrite Hsrc|];
        unfold Author.hldRepo_branch; cbn [repo]; rewrite Hurl, Hp; reflexivity.
    - rewrite Hu. destruct (present (Some u)); [rewrite Hr|];
        unfold Author.hldRepo_branch; cbn [repo]; rewrite Hurl, Hp; reflexivity. }
  split; [exact S|]. intros r cfg c Hr Hc Hv Hpc.
  rewrite (get_inr getRepositoryFromURL env cfg d Hc), S. cbn [commit repo].
  rewrite Hr, Hv, Hpc. reflexivity.
Qed.

(** X18: what [fetchAuthor] is called with.  The commit is never empty and
    is the [sourceVersion] of one of the two build results; the repository
    is that of a build result or the resolver's answer for a non-empty
    [sourceRepo] or [hldRepo] URL. *)
Theorem fetch_arguments (env : Env) (d : IDeploymentData Repo)
    (r : Repo) (c : string) (tok : value) :
  get env d = inr (FetchAuthor r c tok) →
  c ≠ ""
  ∧ (version_of (srcToDockerBuild d) = Some c
     ∨ version_of (hldToManifestBuild d) = Some c)
  ∧ (repository_of (srcToDockerBuild d) = Some r
     ∨ repository_of (hldToManifestBuild d) = Some r
     ∨ (∃ u, sourceRepo d = Some u ∧ u ≠ "" ∧ getRepositoryFromURL u = Some r)
     ∨ (∃ u, hldRepo d = Some u ∧ u ≠ "" ∧ getRepositoryFromURL u = Some r)).
Proof.
  intros H. apply get_fetch in H as (Hr & Hc & Hp & _).
  split; [apply present_Some; exact Hp|]. split.
  - destruct (select_commit d) as [E|E]; rewrite E in Hc; auto.
  - apply select_repo. exact Hr.
Qed.

(** X19: without a commit there is no lookup: when neither build result
    carries a non-empty [sourceVersion], [get] returns absent and logs,
    whatever repositories and URLs the deployment holds. *)
Theorem no_commit_no_fetch (env : Env) (cfg : IConfig) (d : IDeploymentData Repo) :
  getConfig env = inr cfg →
  present (version_of (srcToDockerBuild d)) = false →
  present (version_of (hldToManifestBuild d)) = false →
  get env d = inr (Absent "Repository could not be recognized").
Proof.
  intros Hc Hs Hh. rewrite (get_inr getRepositoryFromURL env cfg d Hc).
  assert (P : present (commit (select d)) = false).
  { destruct (select_commit d) as [E|E]; rewrite E; assumption. }
  destruct (commit (select d)) as [c|]; [|reflexivity].
  rewrite P. destruct (repo (select d)); reflexivity.
Qed.

End AuthorSelection.

Lemma build_repository_first_witness :
  Author.get Samples.no_resolver Samples.env_azdo Samples.dep_build
  = Author.get Samples.resolver Samples.env_azdo Samples.dep_build.
Proof.
  apply (build_repository_first Samples.resolver Samples.env_azdo Samples.dep_build "R").
  reflexivity.
Defined.

Lemma commit_and_repo_across_builds_witness :
  Author.get Samples.resolver Samples.env_azdo Samples.dep_cross
  = inr (Author.FetchAuthor "R" "h1" (Author.access_token Samples.cfg_azdo)).
Proof.
  apply commit_and_repo_across_builds;
    [vm_compute; reflexivity|reflexivity|reflexivity|reflexivity|reflexivity].
Defined.

Lemma hldRepo_commit_witness :
  Author.get Samples.resolver Samples.env_azdo Samples.dep_hldRepo
  = inr (Author.FetchAuthor "https://github.com/org/hld" "h1"
           (Author.access_token Samples.cfg_azdo))
  ∧ Author.select Samples.resolver Samples.dep_unknown_source
    = {| Author.repo := Some "https://github.com/org/hld";
         Author.commit := Some "h1" |}.
Proof.
  split.
  - destruct (hldRepo_commit Samples.resolver Samples.env_azdo Samples.dep_hldRepo
                "https://github.com/org/hld" eq_refl eq_refl (or_introl eq_refl)
                eq_refl eq_refl) as [_ H].
    apply H; [reflexivity|vm_compute; reflexivity|reflexivity|reflexivity].
  - apply (hldRepo_commit Samples.resolver Samples.env_azdo Samples.dep_unknown_source
             "https://github.com/org/hld" eq_refl eq_refl).
    + right. exists "unknown". split; reflexivity.
    + reflexivity.
    + reflexivity.
Defined.

Lemma fetch_arguments_witness :
  "c1" ≠ ""
  ∧ (Author.version_of (Author.srcToDockerBuild Samples.dep_build) = Some "c1"
     ∨ Author.version_of (Author.hldToManifestBuild Samples.dep_build) = Some "c1").
Proof.
  destruct (fetch_arguments Samples.resolver Samples.env_azdo Samples.dep_build
              "R" "c1" VUndefined) as (H1 & H2 & _).
  { vm_compute. reflexivity. }
  split; assumption.
Defined.

Lemma no_commit_no_fetch_witness :
  Author.get Samples.resolver Samples.env_azdo Samples.dep_no_commit
  = inr (Author.Absent "Repository could not be recognized").
Proof.
  apply (no_commit_no_fetch Samples.resolver Samples.env_azdo Samples.cfg_azdo);
    [vm_compute; reflexivity|reflexivity|reflexivity].
Defined.

(** ** The number model against the Standard Library's binary64 *)

(** On the sample integers, [round_to_double] gives the double Stdlib's
    [binary_normalize] gives, and [number_mul] by 1000 the double its [SFmul]
    gives. *)
Example round_to_double_binary64 :
  map round_to_double Samples.integers
  = map (λ z, of_binary64 (binary64_of_Z z)) Samples.integers
  ∧ map (λ z, number_mul (round_to_double z) (Num 1000)) Samples.integers
    = map (λ z, of_binary64
                  (SpecFloat.SFmul 53 1024 (binary64_of_Z z) (binary64_of_Z 1000)))
          Samples.integers.
Proof. split; vm_compute; reflexivity. Qed.
